(** * Sonic bundle simulation: [ethapi.BundleAPI.CallBundle] and
      [filters.PublicFilterAPI.simulateTx]

    A shallow embedding of the two Go source files

    - the [ethapi] file that defines [CallBundleArgs], [CallBundle],
      [processTransactionResult], [prepareFinalResult] and [GetEVM];
    - [gossip/filters/simulate.go], which defines [simulateTx].

    Both functions compose collaborators that live in other packages (the
    node backend, the EVM engine, go-ethereum's transaction and header types,
    the Keccak sponge).  Those collaborators are the fields of the class
    [Externals]; everything the two files compute themselves is written out
    below, in the order of the source.

    Conventions.
    - A [uint64] is a [Z] with the wrap-around written where Go wraps
      ([wrap64]); the conversion [int64(x)] is [toInt64].
    - [big.Int] and [uint256.Int] values are unbounded [Z]; a nil
      [big.Int] is [None].
    - A Go [error] is its message.
    - A Go function returning [(value, error)] returns an [Outcome]; a
      run-time panic is the outcome [Panic].
    - Every call that leaves the two files towards the backend or the engine
      is recorded, in program order, in the trace of the [Sim] monad. *)

From Stdlib Require Import ZArith String Ascii List Lia DecimalString.
From Stdlib.Strings Require Import Byte.
From stdpp Require Import base gmap strings list.

Open Scope Z_scope.

(** ** Machine integers and big integers *)

Definition MaxUint64 : Z := 2 ^ 64 - 1.

(** Arithmetic on [uint64] is modulo 2^64. *)
Definition wrap64 (z : Z) : Z := z mod 2 ^ 64.

(** The conversion [int64(x)] of a [uint64] (or of any integer, by its low
    64 bits). *)
Definition toInt64 (z : Z) : Z := (z + 2 ^ 63) mod 2 ^ 64 - 2 ^ 63.

(** [big.Int.Int64]: the low 64 bits of the magnitude as an [int64],
    negated when the number is negative. *)
Definition bigInt64 (z : Z) : Z :=
  let v := toInt64 (Z.abs z) in
  if z <? 0 then toInt64 (- v) else v.

(** [big.Int.String]: decimal digits with a leading minus sign. *)
Definition bigString (z : Z) : string := NilZero.string_of_int (Z.to_int z).

(** [big.Int.Div]: Euclidean division; Go panics when the divisor is
    zero, which is [None] here. *)
Definition bigDiv (x y : Z) : option Z :=
  if y =? 0 then None
  else if 0 <? y then Some (x / y)
  else Some (- (x / (- y))).

(** ** Bytes, hashes and hexadecimal text *)

Definition Hash : Type := list byte.
Definition Address : Type := list byte.
Definition error : Type := string.

Definition hexdigit (n : N) : ascii :=
  match n with
  | 0%N => "0"%char | 1%N => "1"%char | 2%N => "2"%char | 3%N => "3"%char
  | 4%N => "4"%char | 5%N => "5"%char | 6%N => "6"%char | 7%N => "7"%char
  | 8%N => "8"%char | 9%N => "9"%char | 10%N => "a"%char | 11%N => "b"%char
  | 12%N => "c"%char | 13%N => "d"%char | 14%N => "e"%char | _ => "f"%char
  end.

(** [hex.Encode] / [common.Bytes2Hex]: two lower-case digits per byte. *)
Fixpoint Bytes2Hex (bs : list byte) : string :=
  match bs with
  | [] => EmptyString
  | b :: rest =>
      String (hexdigit (N.div (Byte.to_N b) 16))
        (String (hexdigit (N.modulo (Byte.to_N b) 16)) (Bytes2Hex rest))
  end.

(** [common.Hash.String], also what the verb [%s] prints for a hash. *)
Definition HashString (h : Hash) : string := "0x" +:+ Bytes2Hex h.

(** The zero value of [common.Hash]. *)
Definition zeroHash : Hash := repeat x00 32%nat.

(** ** Values of the collaborating packages *)

(** [rpc.BlockNumberOrHash]. *)
Record BlockNumberOrHash := {
  ref_BlockNumber : option Z;
  ref_BlockHash : option Hash;
  ref_RequireCanonical : bool
}.

(** [rpc.BlockNumberOrHashWithNumber]. *)
Definition BlockNumberOrHashWithNumber (n : Z) : BlockNumberOrHash :=
  {| ref_BlockNumber := Some n; ref_BlockHash := None;
     ref_RequireCanonical := false |}.

(** [evmcore.EvmHeader], with the fields the two files read or write. *)
Record EvmHeader := {
  Hash_ : Hash;
  ParentHash : Hash;
  Number : Z;
  GasLimit : Z;
  Time : Z;
  Coinbase : Address;
  BaseFee : option Z;
  GasUsed : Z
}.

(** [types.Header], as produced by [EvmHeader.EthHeader], with the fields
    the files read. *)
Record Header := {
  eth_Number : Z;
  eth_Time : Z;
  eth_Coinbase : Address;
  eth_BaseFee : option Z
}.

(** [CallBundleArgs].  A pointer field is an [option]. *)
Record CallBundleArgs := {
  arg_Txs : list (list byte);
  arg_BlockNumber : Z;
  arg_StateBlockNumberOrHash : BlockNumberOrHash;
  arg_Coinbase : option string;
  arg_Timestamp : option Z;
  arg_Timeout : option Z;
  arg_GasLimit : option Z;
  arg_Difficulty : option Z;
  arg_BaseFee : option Z
}.

(** [context.Context]: a context of the caller (told apart by a number)
    and what [CallBundle] derives from it. *)
Inductive Context :=
| CallerCtx (id : Z)
| WithTimeout (parent : Context) (timeout : Z)
| WithCancel (parent : Context).

(** The entries of a [map[string]interface{}]. *)
Inductive Value :=
| VStr (s : string)
| VU64 (n : Z).

Inductive RetValue :=
| RResults (rs : list (gmap string Value))
| RI64 (n : Z)
| RU64 (n : Z)
| RStr (s : string).

(** ** Calls that leave the two files, in program order *)

Inductive Event :=
| EvUnmarshalBinary (enc : list byte)
| EvStateAndHeader (ctx : Context) (ref : BlockNumberOrHash)
| EvCtxErr (i : Z)
| EvSetTxContext (txHash : Hash) (i : Z)
| EvGetEVM (txHash : Hash) (header : EvmHeader)
| EvApply (txHash : Hash) (gp : Z) (header : EvmHeader)
| EvGetTransaction (txHash : Hash).

(** ** Results *)

Inductive Outcome (A : Type) : Type :=
| Ok (a : A)             (* the function returned [(a, nil)] *)
| Err (e : error)        (* the function returned [(nil, e)] *)
| NilNil                 (* the function returned [(nil, nil)] *)
| Panic (msg : string).  (* a run-time panic *)
Arguments Ok {A} a.
Arguments Err {A} e.
Arguments NilNil {A}.
Arguments Panic {A} msg.

(** A computation: the calls it made, then how it ended. *)
Definition Sim (A : Type) : Type := (list Event * Outcome A)%type.

Definition ret {A} (a : A) : Sim A := ([], Ok a).
Definition fail {A} (e : error) : Sim A := ([], Err e).
Definition panic {A} (msg : string) : Sim A := ([], Panic msg).
Definition emit (ev : Event) : Sim unit := ([ev], Ok tt).
Definition lift {A} (o : Outcome A) : Sim A := ([], o).

Definition bind {A B} (m : Sim A) (k : A -> Sim B) : Sim B :=
  match m with
  | (t, Ok a) => let '(t', r) := k a in (t ++ t', r)
  | (t, Err e) => (t, Err e)
  | (t, NilNil) => (t, NilNil)
  | (t, Panic msg) => (t, Panic msg)
  end.

Notation "'let!' x := m 'in' k" := (bind m (fun x => k))
  (at level 10, x name, m at level 100, k at level 200).
Notation "'run!' m 'in' k" := (bind m (fun _ => k))
  (at level 10, m at level 100, k at level 200).

Definition trace {A} (m : Sim A) : list Event := fst m.
Definition outcome {A} (m : Sim A) : Outcome A := snd m.

(** ** The collaborators *)

Class Externals := {
  (* opaque values *)
  Transaction : Type;
  StateDB : Type;
  Message : Type;
  EVM : Type;
  Signer : Type;
  Receipt : Type;
  ExecutionResult : Type;
  Log : Type;
  (* types.Transaction *)
  UnmarshalBinary : list byte -> error + Transaction;
  TxHash : Transaction -> Hash;
  TxTo : Transaction -> option Address;
  TxGas : Transaction -> Z;
  EffectiveGasTip : Transaction -> option Z -> Z * option error;
  (* types.MakeSigner, types.Sender, core.TransactionToMessage *)
  MakeSigner : Z -> Z -> Signer;
  Sender : Signer -> Transaction -> Address;
  TransactionToMessage :
    Transaction -> Signer -> option Z -> error + Message;
  (* common *)
  HexToAddress : string -> Address;
  AddressString : Address -> string;
  (* params.ChainConfig, eip1559 *)
  IsLondon : Z -> bool;
  CalcBaseFee : Header -> Z;
  (* evmcore *)
  EthHeader : EvmHeader -> Header;
  ApplyTransactionWithResult :
    Message -> Z -> StateDB -> EvmHeader -> Transaction -> Z -> EVM ->
    error + (Receipt * ExecutionResult * Z * StateDB * Z);
  (* types.Receipt, core.ExecutionResult *)
  Receipt_GasUsed : Receipt -> Z;
  Receipt_Logs : Receipt -> list Log;
  Result_Err : ExecutionResult -> option error;
  Result_Revert : ExecutionResult -> list byte;
  Result_Return : ExecutionResult -> list byte;
  (* state.StateDB *)
  GetBalance : StateDB -> Address -> Z;
  SetTxContext : StateDB -> Hash -> Z -> StateDB;
  (* the backend *)
  StateAndHeaderByNumberOrHash :
    Context -> BlockNumberOrHash ->
    option StateDB * option EvmHeader * option error;
  BackendGetEVM :
    Context -> Message -> StateDB -> EvmHeader -> EVM * option error;
  CurrentBlock : EvmHeader;
  GetTransaction : Context -> Hash -> option Transaction * option error;
  (* context.Context.Err, as observed at the top of iteration [i] *)
  CtxErr : Context -> Z -> option error;
  (* sha3.NewLegacyKeccak256: the digest of everything written *)
  Keccak256 : list byte -> list byte
}.

(** ** The [ethapi] file *)

Section Bundle.
Context `{X : Externals}.

(** [GetEVM] (the package-level helper): build the message, then ask the
    backend for an EVM.  The caller reads [evm] and [msg] only when [err]
    is nil. *)
Definition GetEVM (ctx : Context) (statedb : StateDB) (header : EvmHeader)
    (tx : Transaction) : error + (EVM * Message) :=
  match TransactionToMessage tx (MakeSigner (Number header) (Time header))
          (BaseFee header) with
  | inl err => inl err
  | inr msg =>
      match BackendGetEVM ctx msg statedb header with
      | (_, Some err) => inl err
      | (evm, None) => inr (evm, msg)
      end
  end.

(** [fmt.Errorf("err: %w; txhash %s", err, tx.Hash())]. *)
Definition errTxhash (err : error) (tx : Transaction) : error :=
  "err: " +:+ err +:+ "; txhash " +:+ HashString (TxHash tx).

(** [processTransactionResult]. *)
Definition processTransactionResult (tx : Transaction) (receipt : Receipt)
    (result : ExecutionResult) (signer : Signer) (header : Header)
    (coinbaseBalanceBeforeTx : Z) (state : StateDB)
    : Outcome (gmap string Value) :=
  let txHash := HashString (TxHash tx) in
  let from := Sender signer tx in
  let to := match TxTo tx with
            | Some a => AddressString a
            | None => "0x"
            end in
  let jsonResult : gmap string Value :=
    <["toAddress" := VStr to]>
      (<["fromAddress" := VStr (AddressString from)]>
         (<["gasUsed" := VU64 (Receipt_GasUsed receipt)]>
            (<["txHash" := VStr txHash]> ∅))) in
  let jsonResult :=
    match Result_Err result with
    | Some e =>
        let withError := <["error" := VStr e]> jsonResult in
        let revert := Result_Revert result in
        if (0 <? length revert)%nat
        then <["revert" := VStr (string_of_list_byte revert)]> withError
        else withError
    | None =>
        <["value" := VStr ("0x" +:+ Bytes2Hex (Result_Return result))]>
          jsonResult
    end in
  let coinbaseDiffTx :=
    GetBalance state (eth_Coinbase header) - coinbaseBalanceBeforeTx in
  let gasPrice := fst (EffectiveGasTip tx (eth_BaseFee header)) in
  let gasFeesTx := toInt64 (Receipt_GasUsed receipt) * gasPrice in
  let jsonResult := <["coinbaseDiff" := VStr (bigString coinbaseDiffTx)]>
                      jsonResult in
  let jsonResult := <["gasFees" := VStr (bigString gasFeesTx)]> jsonResult in
  let jsonResult :=
    <["ethSentToCoinbase" := VStr (bigString (coinbaseDiffTx - gasFeesTx))]>
      jsonResult in
  match bigDiv coinbaseDiffTx (toInt64 (Receipt_GasUsed receipt)) with
  | None => Panic "division by zero"
  | Some q => Ok (<["gasPrice" := VStr (bigString q)]> jsonResult)
  end.

(** [prepareFinalResult].  The running digest is the list of bytes written
    to it; [Sum] finalises it. *)
Definition prepareFinalResult (results : list (gmap string Value))
    (state : StateDB) (coinbaseBalanceBefore : Z) (coinbase : Address)
    (gasFees : Z) (totalGasUsed : Z) (parent : Header)
    (bundleHash : list byte) : Outcome (gmap string RetValue) :=
  let ret_ : gmap string RetValue :=
    <["totalGasUsed" := RU64 totalGasUsed]>
      (<["stateBlockNumber" := RI64 (bigInt64 (eth_Number parent))]>
         (<["results" := RResults results]> ∅)) in
  let coinbaseDiff := GetBalance state coinbase - coinbaseBalanceBefore in
  let ret_ := <["coinbaseDiff" := RStr (bigString coinbaseDiff)]> ret_ in
  let ret_ := <["gasFees" := RStr (bigString gasFees)]> ret_ in
  let ret_ :=
    <["ethSentToCoinbase" := RStr (bigString (coinbaseDiff - gasFees))]>
      ret_ in
  match bigDiv coinbaseDiff (toInt64 totalGasUsed) with
  | None => Panic "division by zero"
  | Some q =>
      Ok (<["bundleHash" := RStr ("0x" +:+ Bytes2Hex (Keccak256 bundleHash))]>
            (<["bundleGasPrice" := RStr (bigString q)]> ret_))
  end.

(** The first loop of [CallBundle]: decode every encoding, stopping at the
    first that fails. *)
Fixpoint decodeTxs (encoded : list (list byte)) (txs : list Transaction)
    : Sim (list Transaction) :=
  match encoded with
  | [] => ret txs
  | encodedTx :: rest =>
      run! emit (EvUnmarshalBinary encodedTx) in
      match UnmarshalBinary encodedTx with
      | inl err => fail err
      | inr tx => decodeTxs rest (txs ++ [tx])
      end
  end.

(** The header [CallBundle] builds from the parent and the overrides. *)
Definition bundleHeader (args : CallBundleArgs) (parent : EvmHeader)
    : EvmHeader :=
  let blockNumber := arg_BlockNumber args in
  let timestamp := match arg_Timestamp args with
                   | Some t => t
                   | None => wrap64 (Time parent + 1)
                   end in
  let coinbase := match arg_Coinbase args with
                  | Some s => HexToAddress s
                  | None => Coinbase parent
                  end in
  let gasLimit := match arg_GasLimit args with
                  | Some g => g
                  | None => GasLimit parent
                  end in
  let baseFee := match arg_BaseFee args with
                 | Some f => Some f
                 | None =>
                     if IsLondon (arg_BlockNumber args)
                     then Some (CalcBaseFee (EthHeader parent))
                     else None
                 end in
  {| Hash_ := zeroHash;
     ParentHash := Hash_ parent;
     Number := blockNumber;
     GasLimit := gasLimit;
     Time := timestamp;
     Coinbase := coinbase;
     BaseFee := baseFee;
     GasUsed := 0 |}.

(** What the second loop of [CallBundle] carries from one iteration to the
    next. *)
Record LoopState := {
  state : StateDB;
  gp : Z;
  header : EvmHeader;
  totalGasUsed : Z;
  gasFees : Z;
  bundleHash : list byte;
  results : list (gmap string Value)
}.

Definition setGasUsed (h : EvmHeader) (used : Z) : EvmHeader :=
  {| Hash_ := Hash_ h; ParentHash := ParentHash h; Number := Number h;
     GasLimit := GasLimit h; Time := Time h; Coinbase := Coinbase h;
     BaseFee := BaseFee h; GasUsed := used |}.

(** One iteration of the second loop, for transaction [tx] at index [i]. *)
Definition bundleIter (ctx : Context) (coinbase : Address) (signer : Signer)
    (i : Z) (tx : Transaction) (ls : LoopState) : Sim LoopState :=
  run! emit (EvCtxErr i) in
  match CtxErr ctx i with
  | Some err => fail err
  | None =>
      let coinbaseBalanceBeforeTx := GetBalance (state ls) coinbase in
      run! emit (EvSetTxContext (TxHash tx) i) in
      let state1 := SetTxContext (state ls) (TxHash tx) i in
      run! emit (EvGetEVM (TxHash tx) (header ls)) in
      match GetEVM ctx state1 (header ls) tx with
      | inl err => fail err
      | inr (evm, msg) =>
          run! emit (EvApply (TxHash tx) (gp ls) (header ls)) in
          match ApplyTransactionWithResult msg (gp ls) state1 (header ls) tx
                  (GasUsed (header ls)) evm with
          | inl err => fail (errTxhash err tx)
          | inr (receipt, result, gp2, state2, used2) =>
              let header2 := setGasUsed (header ls) used2 in
              let! jsonResult :=
                lift (processTransactionResult tx receipt result signer
                        (EthHeader header2) coinbaseBalanceBeforeTx state2) in
              let totalGasUsed2 :=
                wrap64 (totalGasUsed ls + Receipt_GasUsed receipt) in
              match EffectiveGasTip tx (BaseFee header2) with
              | (_, Some err) => fail (errTxhash err tx)
              | (gasPrice, None) =>
                  let gasFeesTx :=
                    toInt64 (Receipt_GasUsed receipt) * gasPrice in
                  ret {| state := state2;
                         gp := gp2;
                         header := header2;
                         totalGasUsed := totalGasUsed2;
                         gasFees := gasFees ls + gasFeesTx;
                         bundleHash := bundleHash ls ++ TxHash tx;
                         results := results ls ++ [jsonResult] |}
              end
          end
      end
  end.

(** The second loop of [CallBundle]. *)
Fixpoint bundleLoop (ctx : Context) (coinbase : Address) (signer : Signer)
    (i : Z) (txs : list Transaction) (ls : LoopState) : Sim LoopState :=
  match txs with
  | [] => ret ls
  | tx :: rest =>
      let! ls' := bundleIter ctx coinbase signer i tx ls in
      bundleLoop ctx coinbase signer (i + 1) rest ls'
  end.

(** The context [CallBundle] runs under: the caller's context with the
    deadline of the request, or only cancellable when the timeout is not
    positive.  [time.Millisecond] is 1000000 nanoseconds. *)
Definition bundleContext (ctx : Context) (args : CallBundleArgs) : Context :=
  let timeoutMilliSeconds := match arg_Timeout args with
                             | Some t => t
                             | None => 5000
                             end in
  let timeout := toInt64 (1000000 * timeoutMilliSeconds) in
  if 0 <? timeout then WithTimeout ctx timeout else WithCancel ctx.

(** [CallBundle]. *)
Definition CallBundle (ctx : Context) (args : CallBundleArgs)
    : Sim (gmap string RetValue) :=
  if (length (arg_Txs args) =? 0)%nat then fail "bundle missing txs"
  else if arg_BlockNumber args =? 0 then fail "bundle missing blockNumber"
  else
    let! txs := decodeTxs (arg_Txs args) [] in
    let ctx := bundleContext ctx args in
    run! emit (EvStateAndHeader ctx (arg_StateBlockNumberOrHash args)) in
    match StateAndHeaderByNumberOrHash ctx (arg_StateBlockNumberOrHash args)
    with
    | (_, _, Some err) => fail err
    | (None, _, None) => lift NilNil
    | (Some _, None, None) => panic "nil pointer dereference"
    | (Some state0, Some parent, None) =>
        let header0 := bundleHeader args parent in
        let coinbase := Coinbase header0 in
        let gp0 := MaxUint64 in
        let coinbaseBalanceBefore := GetBalance state0 coinbase in
        let signer :=
          MakeSigner (Number header0) (eth_Time (EthHeader header0)) in
        let! ls :=
          bundleLoop ctx coinbase signer 0 txs
            {| state := state0; gp := gp0; header := header0;
               totalGasUsed := 0; gasFees := 0; bundleHash := [];
               results := [] |} in
        lift (prepareFinalResult (results ls) (state ls)
                coinbaseBalanceBefore coinbase (gasFees ls)
                (totalGasUsed ls) (EthHeader parent) (bundleHash ls))
    end.

End Bundle.

(** ** [gossip/filters/simulate.go] *)

Section Filters.
Context `{X : Externals}.

(** The header [simulateTx] builds on top of the current block. *)
Definition simulateHeader (parent : EvmHeader) : EvmHeader :=
  let blockNumber := Number parent + 1 in
  let timestamp := wrap64 (Time parent + 1) in
  let coinbase := Coinbase parent in
  let gasLimit := GasLimit parent in
  let baseFee := if IsLondon blockNumber
                 then Some (CalcBaseFee (EthHeader parent))
                 else None in
  {| Hash_ := zeroHash;
     ParentHash := Hash_ parent;
     Number := blockNumber;
     GasLimit := gasLimit;
     Time := timestamp;
     Coinbase := coinbase;
     BaseFee := baseFee;
     GasUsed := 0 |}.

(** [simulateTx].  A nil transaction or a nil state that comes back without
    an error is dereferenced, which panics. *)
Definition simulateTx (ctx : Context) (txHash : Hash) : Sim (list Log) :=
  let parent := CurrentBlock in
  run! emit (EvGetTransaction txHash) in
  match GetTransaction ctx txHash with
  | (_, Some err) => fail err
  | (None, None) => panic "nil pointer dereference"
  | (Some tx, None) =>
      let header := simulateHeader parent in
      let gasPool := TxGas tx in
      let ref := BlockNumberOrHashWithNumber (bigInt64 (Number parent)) in
      run! emit (EvStateAndHeader ctx ref) in
      match StateAndHeaderByNumberOrHash ctx ref with
      | (_, _, Some err) => fail err
      | (None, _, None) => panic "nil pointer dereference"
      | (Some state0, _, None) =>
          run! emit (EvSetTxContext (TxHash tx) 0) in
          let state1 := SetTxContext state0 (TxHash tx) 0 in
          run! emit (EvGetEVM (TxHash tx) header) in
          match GetEVM ctx state1 header tx with
          | inl err => fail err
          | inr (evm, msg) =>
              run! emit (EvApply (TxHash tx) gasPool header) in
              match ApplyTransactionWithResult msg gasPool state1 header tx
                      (GasUsed header) evm with
              | inl err => fail err
              | inr (receipt, _, _, _, _) => ret (Receipt_Logs receipt)
              end
          end
      end
  end.

End Filters.

(** ** Vocabulary of the statements *)

(** What the code relies on from the collaborators and does not check:
    a [common.Hash] has 32 bytes, and [EvmHeader.EthHeader] copies the
    coinbase and the base fee. *)
Class ExternalsOK (X : Externals) : Prop := {
  TxHash_length : forall tx : Transaction, length (TxHash tx) = 32%nat;
  EthHeader_Coinbase : forall h, eth_Coinbase (EthHeader h) = Coinbase h;
  EthHeader_BaseFee : forall h, eth_BaseFee (EthHeader h) = BaseFee h
}.

(** An encoding decodes to a transaction. *)
Definition decodes `{X : Externals} (enc : list byte) (tx : Transaction)
    : Prop :=
  UnmarshalBinary enc = inr tx.

Definition sumZ (l : list Z) : Z := foldr Z.add 0 l.

(** The bundle identifier in the words of the specification: the
    0x-prefixed hexadecimal Keccak-256 digest of the transaction hashes fed
    in execution order. *)
Definition bundleDigest `{X : Externals} (hashes : list Hash) : string :=
  "0x" +:+ Bytes2Hex (Keccak256 (concat hashes)).

(** The four calls of an iteration that runs to its end. *)
Definition iterTrace `{X : Externals} (i : Z) (tx : Transaction)
    (ls : LoopState) : list Event :=
  [EvCtxErr i; EvSetTxContext (TxHash tx) i; EvGetEVM (TxHash tx) (header ls);
   EvApply (TxHash tx) (gp ls) (header ls)].

(** The loop state [CallBundle] enters its second loop with: the acquired
    state, the full gas pool, the synthetic header, and empty totals. *)
Definition bundleStart `{X : Externals} (args : CallBundleArgs)
    (state0 : StateDB) (parent : EvmHeader) : LoopState :=
  {| state := state0; gp := MaxUint64; header := bundleHeader args parent;
     totalGasUsed := 0; gasFees := 0; bundleHash := []; results := [] |}.

(** The signer [CallBundle] makes once, before the loop. *)
Definition bundleSigner `{X : Externals} (args : CallBundleArgs)
    (parent : EvmHeader) : Signer :=
  MakeSigner (Number (bundleHeader args parent))
    (eth_Time (EthHeader (bundleHeader args parent))).

(** The header an engine call was made with. *)
Definition eventHeader (ev : Event) : option EvmHeader :=
  match ev with
  | EvGetEVM _ h | EvApply _ _ h => Some h
  | _ => None
  end.

(** Kinds of calls in a trace. *)
Definition isDecode (ev : Event) : bool :=
  match ev with EvUnmarshalBinary _ => true | _ => false end.

Definition isExecution (ev : Event) : bool :=
  match ev with EvGetEVM _ _ | EvApply _ _ _ => true | _ => false end.

(** The calls one loop iteration can make. *)
Definition isLoopEvent (ev : Event) : bool :=
  match ev with
  | EvCtxErr _ | EvSetTxContext _ _ | EvGetEVM _ _ | EvApply _ _ _ => true
  | _ => false
  end.

Definition isOk {A} (o : Outcome A) : bool :=
  match o with Ok _ => true | _ => false end.

(** The inverse of [hexdigit], used to show that [Bytes2Hex] loses
    nothing. *)
Definition unhexdigit (c : ascii) : N :=
  match c with
  | "0"%char => 0 | "1"%char => 1 | "2"%char => 2 | "3"%char => 3
  | "4"%char => 4 | "5"%char => 5 | "6"%char => 6 | "7"%char => 7
  | "8"%char => 8 | "9"%char => 9 | "a"%char => 10 | "b"%char => 11
  | "c"%char => 12 | "d"%char => 13 | "e"%char => 14 | _ => 15
  end%N.

Fixpoint Hex2Bytes (s : string) : list byte :=
  match s with
  | String hi (String lo rest) =>
      match Byte.of_N (unhexdigit hi * 16 + unhexdigit lo) with
      | Some b => b :: Hex2Bytes rest
      | None => []
      end
  | _ => []
  end.

(** The result of a call that returned one (the empty map otherwise). *)
Definition resultOf {A} (m : Sim (gmap string A)) : gmap string A :=
  match outcome m with
  | Ok r => r
  | _ => ∅
  end.

(** The per-transaction accounting of C4: the iteration from [ls] to [ls']
    added one entry whose figures are those of the balances before and
    after, the gas used [g] and the effective tip [tipv]. *)
Definition IterAccounted `{X : Externals} (tx : Transaction)
    (ls ls' : LoopState) : Prop :=
  exists entry g tipv,
    results ls' = results ls ++ [entry] /\
    entry !! "gasUsed" = Some (VU64 g) /\
    EffectiveGasTip tx (BaseFee (header ls)) = (tipv, None) /\
    let diff := GetBalance (state ls') (Coinbase (header ls))
                - GetBalance (state ls) (Coinbase (header ls)) in
    entry !! "coinbaseDiff" = Some (VStr (bigString diff)) /\
    entry !! "gasFees" = Some (VStr (bigString (toInt64 g * tipv))) /\
    entry !! "ethSentToCoinbase"
    = Some (VStr (bigString (diff - toInt64 g * tipv))) /\
    (0 <= g < 2 ^ 63 -> toInt64 g * tipv = g * tipv).

(** The bundle-wide accounting of C4: the result [ret_] of the call reports
    the balance after the loop minus the balance of the state as acquired,
    the sum of the entries' fees, and their difference. *)
Definition BundleAccounted `{X : Externals} (ctx : Context)
    (args : CallBundleArgs) (ret_ : gmap string RetValue) : Prop :=
  exists txs state0 parent tl ls entries fees,
    Forall2 decodes (arg_Txs args) txs /\
    StateAndHeaderByNumberOrHash (bundleContext ctx args)
      (arg_StateBlockNumberOrHash args) = (Some state0, Some parent, None) /\
    bundleLoop (bundleContext ctx args)
      (Coinbase (bundleHeader args parent)) (bundleSigner args parent) 0
      txs (bundleStart args state0 parent) = (tl, Ok ls) /\
    ret_ !! "results" = Some (RResults entries) /\
    Forall2 (fun e f => e !! "gasFees" = Some (VStr (bigString f)))
      entries fees /\
    let coinbase := Coinbase (bundleHeader args parent) in
    let diff := GetBalance (state ls) coinbase - GetBalance state0 coinbase in
    ret_ !! "coinbaseDiff" = Some (RStr (bigString diff)) /\
    ret_ !! "gasFees" = Some (RStr (bigString (sumZ fees))) /\
    ret_ !! "ethSentToCoinbase" = Some (RStr (bigString (diff - sumZ fees))).

(** The header of C5, field by field: what the synthetic header [h] takes
    from the parent and what from the overrides of the request. *)
Definition HeaderSynthesized `{X : Externals} (args : CallBundleArgs)
    (parent h : EvmHeader) : Prop :=
  ParentHash h = Hash_ parent /\
  Number h = arg_BlockNumber args /\
  Time h = match arg_Timestamp args with
           | Some t => t
           | None => wrap64 (Time parent + 1)
           end /\
  Coinbase h = match arg_Coinbase args with
               | Some s => HexToAddress s
               | None => Coinbase parent
               end /\
  GasLimit h = match arg_GasLimit args with
               | Some g => g
               | None => GasLimit parent
               end /\
  BaseFee h = match arg_BaseFee args with
              | Some f => Some f
              | None =>
                  if IsLondon (arg_BlockNumber args)
                  then Some (CalcBaseFee (EthHeader parent))
                  else None
              end.

(** The result list of C6: one entry per transaction of the request, in
    the order of the request, and a total that is the 64-bit sum of the gas
    used the entries report (the plain sum when that fits 64 bits). *)
Definition ResultsInOrder `{X : Externals} (args : CallBundleArgs)
    (ret_ : gmap string RetValue) : Prop :=
  exists txs entries gs,
    Forall2 decodes (arg_Txs args) txs /\
    ret_ !! "results" = Some (RResults entries) /\
    length entries = length (arg_Txs args) /\
    Forall2 (fun tx e => e !! "txHash" = Some (VStr (HashString (TxHash tx))))
      txs entries /\
    Forall2 (fun e g => e !! "gasUsed" = Some (VU64 g)) entries gs /\
    ret_ !! "totalGasUsed" = Some (RU64 (wrap64 (sumZ gs))) /\
    (0 <= sumZ gs < 2 ^ 64 -> ret_ !! "totalGasUsed" = Some (RU64 (sumZ gs))).

(** Keccak-256 does not send the two byte streams to one digest. *)
Definition NoCollision `{X : Externals} (s1 s2 : list byte) : Prop :=
  Keccak256 s1 = Keccak256 s2 -> s1 = s2.

(** The calls of a [simulateTx] that runs to its end, for transaction [tx]
    on top of [parent]: one engine call, with a gas pool of exactly the gas
    limit of the transaction. *)
Definition simulateTrace `{X : Externals} (ctx : Context) (txHash : Hash)
    (tx : Transaction) (parent : EvmHeader) : list Event :=
  [EvGetTransaction txHash;
   EvStateAndHeader ctx (BlockNumberOrHashWithNumber (bigInt64 (Number parent)));
   EvSetTxContext (TxHash tx) 0;
   EvGetEVM (TxHash tx) (simulateHeader parent);
   EvApply (TxHash tx) (TxGas tx) (simulateHeader parent)].

(** The steps of a [simulateTx] that runs to its end: the transaction is
    found, the state of the current block is acquired, the engine applies
    the transaction once on that state with a gas pool of its gas limit,
    and [logs] are the logs of the receipt. *)
Definition SimulatedOnHead `{X : Externals} (ctx : Context) (txHash : Hash)
    (t : list Event) (logs : list Log) : Prop :=
  exists tx state0 oparent evm msg receipt result gp2 state2 used2,
    GetTransaction ctx txHash = (Some tx, None) /\
    StateAndHeaderByNumberOrHash ctx
      (BlockNumberOrHashWithNumber (bigInt64 (Number CurrentBlock)))
    = (Some state0, oparent, None) /\
    GetEVM ctx (SetTxContext state0 (TxHash tx) 0)
      (simulateHeader CurrentBlock) tx = inr (evm, msg) /\
    ApplyTransactionWithResult msg (TxGas tx)
      (SetTxContext state0 (TxHash tx) 0) (simulateHeader CurrentBlock) tx 0
      evm = inr (receipt, result, gp2, state2, used2) /\
    logs = Receipt_Logs receipt /\
    t = simulateTrace ctx txHash tx CurrentBlock.

(** The transactions the state was tagged with, with their positions, in
    the order of the calls. *)
Definition txContexts (t : list Event) : list (Hash * Z) :=
  flat_map (fun ev => match ev with
                      | EvSetTxContext h i => [(h, i)]
                      | _ => []
                      end) t.

(** The transactions the engine was invoked on, in the order of the
    calls. *)
Definition appliedHashes (t : list Event) : list Hash :=
  flat_map (fun ev => match ev with
                      | EvApply h _ _ => [h]
                      | _ => []
                      end) t.

(** The gas pools the engine was invoked with, in the order of the calls. *)
Definition appliedPools (t : list Event) : list Z :=
  flat_map (fun ev => match ev with
                      | EvApply _ gp _ => [gp]
                      | _ => []
                      end) t.

(** The hashes of [txs] paired with the positions [i], [i + 1], ... *)
Fixpoint tagged `{X : Externals} (i : Z) (txs : list Transaction)
    : list (Hash * Z) :=
  match txs with
  | [] => []
  | tx :: rest => (TxHash tx, i) :: tagged (i + 1) rest
  end.

(** A request like [args] but for another state reference. *)
Definition withStateRef (args : CallBundleArgs) (ref : BlockNumberOrHash)
    : CallBundleArgs :=
  {| arg_Txs := arg_Txs args;
     arg_BlockNumber := arg_BlockNumber args;
     arg_StateBlockNumberOrHash := ref;
     arg_Coinbase := arg_Coinbase args;
     arg_Timestamp := arg_Timestamp args;
     arg_Timeout := arg_Timeout args;
     arg_GasLimit := arg_GasLimit args;
     arg_Difficulty := arg_Difficulty args;
     arg_BaseFee := arg_BaseFee args |}.

(** The keys every entry has. *)
Definition entryKeys : gset string :=
  {[ "txHash"; "gasUsed"; "fromAddress"; "toAddress"; "coinbaseDiff";
     "gasFees"; "ethSentToCoinbase"; "gasPrice" ]}.

(** The keys of a final result. *)
Definition resultKeys : gset string :=
  {[ "results"; "stateBlockNumber"; "totalGasUsed"; "coinbaseDiff";
     "gasFees"; "ethSentToCoinbase"; "bundleGasPrice"; "bundleHash" ]}.

(** The positions at which the cancellation signal was read, in the order
    of the calls. *)
Definition ctxChecks (t : list Event) : list Z :=
  flat_map (fun ev => match ev with
                      | EvCtxErr i => [i]
                      | _ => []
                      end) t.

(** The positions [i], [i + 1], ..., one per element of [l]. *)
Fixpoint positions {A} (i : Z) (l : list A) : list Z :=
  match l with
  | [] => []
  | _ :: rest => i :: positions (i + 1) rest
  end.

(** The aggregates of a result are the sums of the figures of its
    entries: there are per-entry coinbase differences, fees and values sent
    to the coinbase, which are what the entries show, and whose sums are
    what the result shows. *)
Definition SumsOfEntries (ret_ : gmap string RetValue) : Prop :=
  exists entries diffs fees sents,
    ret_ !! "results" = Some (RResults entries) /\
    Forall2 (fun e d => e !! "coinbaseDiff" = Some (VStr (bigString d)))
      entries diffs /\
    Forall2 (fun e f => e !! "gasFees" = Some (VStr (bigString f)))
      entries fees /\
    Forall2 (fun e s => e !! "ethSentToCoinbase" = Some (VStr (bigString s)))
      entries sents /\
    ret_ !! "coinbaseDiff" = Some (RStr (bigString (sumZ diffs))) /\
    ret_ !! "gasFees" = Some (RStr (bigString (sumZ fees))) /\
    ret_ !! "ethSentToCoinbase" = Some (RStr (bigString (sumZ sents))).

(** ** A small world to run the code in

    A transaction is its own encoding; its first byte selects how the
    engine treats it.  The state is the balance of the coinbase. *)

Module Toy.

Definition Tx : Type := list byte.

Definition txHash (tx : Tx) : Hash := firstn 32 (tx ++ repeat x00 32%nat).

Definition unmarshal (enc : list byte) : error + Tx :=
  match enc with
  | [] => inl "typed transaction too short"
  | _ => inr enc
  end.

Definition toMessage (tx : Tx) (s : unit) (baseFee : option Z) : error + Tx :=
  match tx with
  | x04 :: _ => inl "invalid sender"
  | _ => inr tx
  end.

Definition tip (tx : Tx) (baseFee : option Z) : Z * option error :=
  match tx with
  | x05 :: _ => (-1, Some "max fee per gas less than block base fee")
  | _ => (2, None)
  end.

Definition ExecResult : Type := (option error * list byte)%type.

(** [x00]: applies with zero gas used; [x02]: reverts inside the VM;
    [x03]: the engine refuses it; [x06]: succeeds without events; any other
    transaction succeeds, pays its fee and tips the coinbase 1000. *)
Definition apply (msg : Tx) (gp : Z) (st : Z) (h : EvmHeader) (tx : Tx)
    (used : Z) (evm : unit)
    : error + ((Z * list Z) * ExecResult * Z * Z * Z) :=
  match tx with
  | x03 :: _ => inl "nonce too low"
  | x00 :: _ => inr ((0, []), (None, []), gp, st, used)
  | x02 :: _ =>
      inr ((30000, []), (Some "execution reverted", [x6e; x6f]),
           gp - 30000, st + 60000, wrap64 (used + 30000))
  | x06 :: _ =>
      inr ((21000, []), (None, []), gp - 21000, st + 42000,
           wrap64 (used + 21000))
  | _ =>
      inr ((21000, [7]), (None, [x2a]), gp - 21000, st + 43000,
           wrap64 (used + 21000))
  end.

Definition parentAt (n : Z) : EvmHeader :=
  {| Hash_ := repeat xaa 32%nat;
     ParentHash := repeat xbb 32%nat;
     Number := n;
     GasLimit := 30000000;
     Time := 1700000000000000000;
     Coinbase := repeat xcc 20%nat;
     BaseFee := Some 7;
     GasUsed := 12345 |}.

Definition stateAndHeader (ctx : Context) (ref : BlockNumberOrHash)
    : option Z * option EvmHeader * option error :=
  match ref_BlockNumber ref with
  | Some n =>
      if n <? 0 then (None, None, Some "header not found")
      else (Some 1000000, Some (parentAt n), None)
  | None => (None, None, Some "header not found")
  end.

(** The caller's context [CallerCtx n] with [0 < n] is cancelled from the
    check of index [n - 1] on; a deadline passes after one second per
    transaction. *)
Fixpoint ctxErr (ctx : Context) (i : Z) : option error :=
  match ctx with
  | CallerCtx n =>
      if (0 <? n) && (n - 1 <=? i) then Some "context canceled" else None
  | WithCancel p => ctxErr p i
  | WithTimeout p d =>
      match ctxErr p i with
      | Some e => Some e
      | None =>
          if d <=? i * 1000000000 then Some "context deadline exceeded"
          else None
      end
  end.

Definition getTransaction (ctx : Context) (h : Hash)
    : option Tx * option error :=
  match h with
  | xff :: _ => (None, Some "transaction not found")
  | _ => (Some h, None)
  end.

#[export] Instance world : Externals := {|
  Transaction := Tx;
  StateDB := Z;
  Message := Tx;
  EVM := unit;
  Signer := unit;
  Receipt := (Z * list Z)%type;
  ExecutionResult := ExecResult;
  Log := Z;
  UnmarshalBinary := unmarshal;
  TxHash := txHash;
  TxTo := fun tx => match tx with x07 :: _ => None | _ => Some (firstn 20 tx) end;
  TxGas := fun tx => 50000;
  EffectiveGasTip := tip;
  MakeSigner := fun _ _ => tt;
  Sender := fun _ tx => repeat x11 20%nat;
  TransactionToMessage := toMessage;
  HexToAddress := fun s => firstn 20 (list_byte_of_string s ++ repeat x00 20%nat);
  AddressString := fun a => "0x" +:+ Bytes2Hex a;
  IsLondon := fun n => 0 <=? n;
  CalcBaseFee := fun h => 9;
  EthHeader := fun h =>
    {| eth_Number := Number h; eth_Time := Time h / 1000000000;
       eth_Coinbase := Coinbase h; eth_BaseFee := BaseFee h |};
  ApplyTransactionWithResult := apply;
  Receipt_GasUsed := fst;
  Receipt_Logs := snd;
  Result_Err := fst;
  Result_Revert := fun r => match fst r with Some _ => snd r | None => [] end;
  Result_Return := fun r => match fst r with Some _ => [] | None => snd r end;
  GetBalance := fun st _ => st;
  SetTxContext := fun st _ _ => st;
  StateAndHeaderByNumberOrHash := stateAndHeader;
  BackendGetEVM := fun _ _ _ _ => (tt, None);
  CurrentBlock := parentAt 100;
  GetTransaction := getTransaction;
  CtxErr := ctxErr;
  Keccak256 := fun bs => bs
|}.

Definition request (txs : list (list byte)) (blockNumber : Z)
    (coinbase : option string) (timestamp : option Z) : CallBundleArgs :=
  {| arg_Txs := txs;
     arg_BlockNumber := blockNumber;
     arg_StateBlockNumberOrHash := BlockNumberOrHashWithNumber 100;
     arg_Coinbase := coinbase;
     arg_Timestamp := timestamp;
     arg_Timeout := None;
     arg_GasLimit := None;
     arg_Difficulty := None;
     arg_BaseFee := None |}.

End Toy.

(** The toy world with a backend that answers an unknown transaction
    hash the way go-ethereum backends do: no transaction and no error. *)
Definition silentMissWorld : Externals := {|
  Transaction := Toy.Tx;
  StateDB := Z;
  Message := Toy.Tx;
  EVM := unit;
  Signer := unit;
  Receipt := (Z * list Z)%type;
  ExecutionResult := Toy.ExecResult;
  Log := Z;
  UnmarshalBinary := Toy.unmarshal;
  TxHash := Toy.txHash;
  TxTo := fun tx => Some (firstn 20 tx);
  TxGas := fun tx => 50000;
  EffectiveGasTip := Toy.tip;
  MakeSigner := fun _ _ => tt;
  Sender := fun _ tx => repeat x11 20%nat;
  TransactionToMessage := Toy.toMessage;
  HexToAddress :=
    fun s => firstn 20 (list_byte_of_string s ++ repeat x00 20%nat);
  AddressString := fun a => "0x" +:+ Bytes2Hex a;
  IsLondon := fun n => 0 <=? n;
  CalcBaseFee := fun h => 9;
  EthHeader := fun h =>
    {| eth_Number := Number h; eth_Time := Time h / 1000000000;
       eth_Coinbase := Coinbase h; eth_BaseFee := BaseFee h |};
  ApplyTransactionWithResult := Toy.apply;
  Receipt_GasUsed := fst;
  Receipt_Logs := snd;
  Result_Err := fst;
  Result_Revert := fun r => match fst r with Some _ => snd r | None => [] end;
  Result_Return := fun r => match fst r with Some _ => [] | None => snd r end;
  GetBalance := fun st _ => st;
  SetTxContext := fun st _ _ => st;
  StateAndHeaderByNumberOrHash := Toy.stateAndHeader;
  BackendGetEVM := fun _ _ _ _ => (tt, None);
  CurrentBlock := Toy.parentAt 100;
  GetTransaction := fun _ _ => (None, None);
  CtxErr := Toy.ctxErr;
  Keccak256 := fun bs => bs
|}.

(** * Properties *)

(** ** Machine integers *)

Lemma toInt64_small (g : Z) : 0 <= g < 2 ^ 63 -> toInt64 g = g.
Proof.
  intros Hg. unfold toInt64.
  rewrite Z.mod_small by lia. lia.
Qed.

Lemma toInt64_zero_iff (g : Z) : 0 <= g < 2 ^ 64 -> toInt64 g = 0 <-> g = 0.
Proof.
  intros Hg. unfold toInt64. split.
  - intros H.
    destruct (Z_lt_le_dec g (2 ^ 63)) as [Hlt | Hge].
    + rewrite Z.mod_small in H by lia. lia.
    + replace (g + 2 ^ 63) with ((g - 2 ^ 63) + 1 * 2 ^ 64) in H by lia.
      rewrite Z.mod_add in H by lia.
      rewrite Z.mod_small in H by lia. lia.
  - intros ->. reflexivity.
Qed.

Lemma wrap64_small (z : Z) : 0 <= z < 2 ^ 64 -> wrap64 z = z.
Proof. intros H. unfold wrap64. apply Z.mod_small. lia. Qed.

Lemma wrap64_add_l (a b : Z) : wrap64 (wrap64 a + b) = wrap64 (a + b).
Proof. unfold wrap64. apply Zplus_mod_idemp_l. Qed.

Lemma bigDiv_None (x y : Z) : bigDiv x y = None <-> y = 0.
Proof.
  unfold bigDiv. destruct (Z.eqb_spec y 0) as [-> | Hy].
  - split; auto.
  - destruct (0 <? y); split; intros H; congruence.
Qed.

Lemma bigDiv_zero (x : Z) : bigDiv x 0 = None.
Proof. reflexivity. Qed.

(** [big.Int.Div] is Euclidean: the remainder is never negative. *)
Lemma bigDiv_euclid (x y q : Z) :
  bigDiv x y = Some q -> 0 <= x - q * y < Z.abs y.
Proof.
  unfold bigDiv. destruct (Z.eqb_spec y 0) as [-> | Hy]; [discriminate |].
  destruct (Z.ltb_spec 0 y) as [Hpos | Hneg]; intros [= <-].
  - pose proof (Z.mod_pos_bound x y Hpos) as Hb.
    rewrite Z.mod_eq in Hb by lia. lia.
  - assert (Hpos : 0 < - y) by lia.
    pose proof (Z.mod_pos_bound x (- y) Hpos) as Hb.
    rewrite Z.mod_eq in Hb by lia. lia.
Qed.

(** ** The computation monad *)

Lemma bind_Ok_inv {A B} (m : Sim A) (k : A -> Sim B) (t : list Event) (b : B) :
  bind m k = (t, Ok b) ->
  exists t1 a t2, m = (t1, Ok a) /\ k a = (t2, Ok b) /\ t = t1 ++ t2.
Proof.
  unfold bind. destruct m as [t1 [a | e | | msg]]; try discriminate.
  destruct (k a) as [t2 r] eqn:Hk. intros [= <- ->].
  exists t1, a, t2. auto.
Qed.

Lemma bind_trace {A B} (m : Sim A) (k : A -> Sim B) :
  exists t2, trace (bind m k) = trace m ++ t2.
Proof.
  unfold bind, trace. destruct m as [t1 [a | e | | msg]]; simpl.
  - destruct (k a) as [t2 r]. exists t2. reflexivity.
  - exists []. symmetry. apply app_nil_r.
  - exists []. symmetry. apply app_nil_r.
  - exists []. symmetry. apply app_nil_r.
Qed.

(** ** Hexadecimal text *)

Lemma Hex2Bytes_Bytes2Hex (bs : list byte) : Hex2Bytes (Bytes2Hex bs) = bs.
Proof.
  induction bs as [| b bs IH]; [reflexivity |].
  cbn [Bytes2Hex Hex2Bytes]. rewrite IH.
  destruct b; reflexivity.
Qed.

Lemma Bytes2Hex_inj (bs1 bs2 : list byte) :
  Bytes2Hex bs1 = Bytes2Hex bs2 -> bs1 = bs2.
Proof.
  intros H. rewrite <- (Hex2Bytes_Bytes2Hex bs1), <- (Hex2Bytes_Bytes2Hex bs2).
  now rewrite H.
Qed.

(** Blocks of one size can be read back from their concatenation. *)
Lemma concat_blocks_inj (n : nat) (l1 l2 : list (list byte)) :
  (0 < n)%nat ->
  Forall (fun h => length h = n) l1 ->
  Forall (fun h => length h = n) l2 ->
  concat l1 = concat l2 -> l1 = l2.
Proof.
  intros Hn H1. revert l2.
  induction H1 as [| h1 l1 Hh1 _ IH]; intros l2 H2 Heq.
  - destruct H2 as [| h2 l2 Hh2 _]; [reflexivity |].
    simpl in Heq. destruct h2; simpl in *; [lia | discriminate].
  - destruct H2 as [| h2 l2 Hh2 H2].
    + simpl in Heq. destruct h1; simpl in *; [lia | discriminate].
    + simpl in Heq.
      apply app_inj_1 in Heq as [-> Heq]; [| congruence].
      f_equal. now apply IH.
Qed.

(** ** The per-transaction result entry *)

Section EntryFacts.
Context `{X : Externals}.

Ltac entry_inv H :=
  unfold processTransactionResult in H;
  match type of H with
  | context [bigDiv ?x ?y] =>
      destruct (bigDiv x y) as [?q |] eqn:?Hdiv; [| discriminate H]
  end;
  injection H as <-.

(** The division by the gas used decides between a result and a panic. *)
Lemma processTransactionResult_outcome tx receipt result signer hdr bal st :
  (toInt64 (Receipt_GasUsed receipt) = 0 ->
   processTransactionResult tx receipt result signer hdr bal st
   = Panic "division by zero") /\
  (toInt64 (Receipt_GasUsed receipt) <> 0 ->
   exists entry,
     processTransactionResult tx receipt result signer hdr bal st = Ok entry).
Proof.
  unfold processTransactionResult. split; intros Hg.
  - rewrite Hg, bigDiv_zero. reflexivity.
  - match goal with
    | |- context [bigDiv ?x ?y] => destruct (bigDiv x y) as [q |] eqn:Hdiv
    end.
    + eexists. reflexivity.
    + apply bigDiv_None in Hdiv. contradiction.
Qed.

(** The identifying fields of an entry. *)
Lemma entry_identity tx receipt result signer hdr bal st entry :
  processTransactionResult tx receipt result signer hdr bal st = Ok entry ->
  entry !! "txHash" = Some (VStr (HashString (TxHash tx))) /\
  entry !! "gasUsed" = Some (VU64 (Receipt_GasUsed receipt)).
Proof.
  intros H. entry_inv H.
  destruct (Result_Err result) as [e |];
    [destruct (0 <? length (Result_Revert result))%nat |];
    split; reflexivity.
Qed.

(** The economic fields of an entry. *)
Lemma entry_accounting tx receipt result signer hdr bal st entry :
  processTransactionResult tx receipt result signer hdr bal st = Ok entry ->
  let diff := GetBalance st (eth_Coinbase hdr) - bal in
  let fees := toInt64 (Receipt_GasUsed receipt)
              * fst (EffectiveGasTip tx (eth_BaseFee hdr)) in
  entry !! "coinbaseDiff" = Some (VStr (bigString diff)) /\
  entry !! "gasFees" = Some (VStr (bigString fees)) /\
  entry !! "ethSentToCoinbase" = Some (VStr (bigString (diff - fees))) /\
  exists q,
    bigDiv diff (toInt64 (Receipt_GasUsed receipt)) = Some q /\
    entry !! "gasPrice" = Some (VStr (bigString q)).
Proof.
  intros H diff fees. entry_inv H.
  destruct (Result_Err result) as [e |];
    [destruct (0 <? length (Result_Revert result))%nat |];
    (repeat split; [reflexivity .. |]);
    (eexists; split; [exact Hdiv | reflexivity]).
Qed.

(** How the execution result shows in an entry: a failure inside the VM
    gives ["error"] (and ["revert"] when there is revert data) and no
    ["value"]; a success gives ["value"] only. *)
Lemma entry_execution tx receipt result signer hdr bal st entry :
  processTransactionResult tx receipt result signer hdr bal st = Ok entry ->
  match Result_Err result with
  | Some e =>
      entry !! "error" = Some (VStr e) /\
      entry !! "value" = None /\
      entry !! "revert" =
        (if (0 <? length (Result_Revert result))%nat
         then Some (VStr (string_of_list_byte (Result_Revert result)))
         else None)
  | None =>
      entry !! "value"
      = Some (VStr ("0x" +:+ Bytes2Hex (Result_Return result))) /\
      entry !! "error" = None /\
      entry !! "revert" = None
  end.
Proof.
  intros H. entry_inv H.
  destruct (Result_Err result) as [e |];
    [destruct (0 <? length (Result_Revert result))%nat |];
    repeat split; reflexivity.
Qed.

End EntryFacts.

(** ** The loops of [CallBundle] *)

Section LoopFacts.
Context `{X : Externals}.

Lemma decodeTxs_all (encoded : list (list byte)) :
  forall acc txs,
    Forall2 decodes encoded txs ->
    decodeTxs encoded acc = (map EvUnmarshalBinary encoded, Ok (acc ++ txs)).
Proof.
  induction encoded as [| enc rest IH]; intros acc txs Hdec.
  - inversion Hdec; subst. simpl. unfold ret. now rewrite app_nil_r.
  - inversion Hdec as [| ? tx ? txs' Hd Hrest]; subst.
    cbn [decodeTxs]. unfold decodes in Hd. rewrite Hd.
    unfold bind, emit. rewrite (IH (acc ++ [tx]) txs' Hrest).
    rewrite <- app_assoc. reflexivity.
Qed.

Lemma decodeTxs_first_failure (pre : list (list byte)) :
  forall bad post acc txs e,
    Forall2 decodes pre txs ->
    UnmarshalBinary bad = inl e ->
    decodeTxs (pre ++ bad :: post) acc
    = (map EvUnmarshalBinary (pre ++ [bad]), Err e).
Proof.
  induction pre as [| enc rest IH]; intros bad post acc txs e Hdec Hbad.
  - cbn [app decodeTxs]. rewrite Hbad. reflexivity.
  - inversion Hdec as [| ? tx ? txs' Hd Hrest]; subst.
    cbn [app decodeTxs]. unfold decodes in Hd. rewrite Hd.
    unfold bind, emit.
    rewrite (IH bad post (acc ++ [tx]) txs' e Hrest Hbad). reflexivity.
Qed.

Lemma decodeTxs_Ok_inv (encoded : list (list byte)) :
  forall acc t txs',
    decodeTxs encoded acc = (t, Ok txs') ->
    exists txs,
      Forall2 decodes encoded txs /\ txs' = acc ++ txs /\
      t = map EvUnmarshalBinary encoded.
Proof.
  induction encoded as [| enc rest IH]; intros acc t txs' H.
  - injection H as <- <-. exists []. rewrite app_nil_r. auto.
  - cbn [decodeTxs] in H.
    destruct (UnmarshalBinary enc) as [e | tx] eqn:Hd; [discriminate |].
    unfold bind, emit in H.
    destruct (decodeTxs rest (acc ++ [tx])) as [t' r] eqn:Hrest.
    injection H as <- ->.
    destruct (IH _ _ _ Hrest) as (txs & Hdec & -> & ->).
    exists (tx :: txs). rewrite <- app_assoc.
    split; [constructor; assumption | split; reflexivity].
Qed.

(** Every encoding list either decodes entirely or has a first encoding
    that fails. *)
Lemma decodes_or_fails (encoded : list (list byte)) :
  (exists txs, Forall2 decodes encoded txs) \/
  (exists pre bad post txs e,
     encoded = pre ++ bad :: post /\ Forall2 decodes pre txs /\
     UnmarshalBinary bad = inl e).
Proof.
  induction encoded as [| enc rest IH].
  - left. exists []. constructor.
  - destruct (UnmarshalBinary enc) as [e | tx] eqn:Hd.
    + right. exists [], enc, rest, [], e. repeat split; auto.
    + destruct IH as [(txs & Hdec) | (pre & bad & post & txs & e & -> & Hdec & Hbad)].
      * left. exists (tx :: txs). constructor; assumption.
      * right. exists (enc :: pre), bad, post, (tx :: txs), e.
        split; [reflexivity | split; [constructor; assumption | exact Hbad]].
Qed.

(** An iteration that runs to its end: every step succeeded, and the next
    loop state is the one written in the source. *)
Lemma bundleIter_Ok_inv ctx coinbase signer i tx ls t ls' :
  bundleIter ctx coinbase signer i tx ls = (t, Ok ls') ->
  exists evm msg receipt result gp2 state2 used2 entry tipv,
    let state1 := SetTxContext (state ls) (TxHash tx) i in
    let header2 := setGasUsed (header ls) used2 in
    CtxErr ctx i = None /\
    GetEVM ctx state1 (header ls) tx = inr (evm, msg) /\
    ApplyTransactionWithResult msg (gp ls) state1 (header ls) tx
      (GasUsed (header ls)) evm
    = inr (receipt, result, gp2, state2, used2) /\
    processTransactionResult tx receipt result signer (EthHeader header2)
      (GetBalance (state ls) coinbase) state2 = Ok entry /\
    EffectiveGasTip tx (BaseFee (header ls)) = (tipv, None) /\
    ls' = {| state := state2; gp := gp2; header := header2;
             totalGasUsed := wrap64 (totalGasUsed ls + Receipt_GasUsed receipt);
             gasFees := gasFees ls + toInt64 (Receipt_GasUsed receipt) * tipv;
             bundleHash := bundleHash ls ++ TxHash tx;
             results := results ls ++ [entry] |} /\
    t = iterTrace i tx ls.
Proof.
  unfold bundleIter. intros H.
  destruct (CtxErr ctx i) as [e |] eqn:Hctx; [discriminate |].
  destruct (GetEVM ctx _ (header ls) tx) as [e | [evm msg]] eqn:Hevm;
    [discriminate |].
  destruct (ApplyTransactionWithResult msg _ _ _ _ _ evm)
    as [e | [[[[receipt result] gp2] state2] used2]] eqn:Happ;
    [discriminate |].
  destruct (processTransactionResult tx receipt result signer _ _ state2)
    as [entry | e | | m] eqn:Hproc; try discriminate.
  cbn [setGasUsed BaseFee] in H.
  destruct (EffectiveGasTip tx (BaseFee (header ls))) as [tipv [e |]] eqn:Htip;
    [discriminate |].
  injection H as <- <-.
  exists evm, msg, receipt, result, gp2, state2, used2, entry, tipv.
  cbn zeta. repeat split; auto.
Qed.

(** The steps that make an iteration run to its end. *)
Lemma bundleIter_applied ctx coinbase signer i tx ls
    evm msg receipt result gp2 state2 used2 tipv :
  let state1 := SetTxContext (state ls) (TxHash tx) i in
  let header2 := setGasUsed (header ls) used2 in
  CtxErr ctx i = None ->
  GetEVM ctx state1 (header ls) tx = inr (evm, msg) ->
  ApplyTransactionWithResult msg (gp ls) state1 (header ls) tx
    (GasUsed (header ls)) evm
  = inr (receipt, result, gp2, state2, used2) ->
  toInt64 (Receipt_GasUsed receipt) <> 0 ->
  EffectiveGasTip tx (BaseFee (header ls)) = (tipv, None) ->
  exists entry,
    processTransactionResult tx receipt result signer (EthHeader header2)
      (GetBalance (state ls) coinbase) state2 = Ok entry /\
    bundleIter ctx coinbase signer i tx ls
    = (iterTrace i tx ls,
       Ok {| state := state2; gp := gp2; header := header2;
             totalGasUsed := wrap64 (totalGasUsed ls + Receipt_GasUsed receipt);
             gasFees := gasFees ls + toInt64 (Receipt_GasUsed receipt) * tipv;
             bundleHash := bundleHash ls ++ TxHash tx;
             results := results ls ++ [entry] |}).
Proof.
  intros state1 header2 Hctx Hevm Happ Hgas Htip.
  destruct (processTransactionResult_outcome tx receipt result signer
              (EthHeader header2) (GetBalance (state ls) coinbase) state2)
    as [_ Hok].
  destruct (Hok Hgas) as [entry Hentry].
  exists entry. split; [exact Hentry |].
  unfold bundleIter. rewrite Hctx.
  fold state1. rewrite Hevm, Happ. fold header2. rewrite Hentry.
  cbn [lift bind emit ret fail]. subst header2. cbn [setGasUsed BaseFee].
  rewrite Htip. reflexivity.
Qed.

(** Every iteration starts by asking the context whether it is done. *)
Lemma bundleIter_checks_first ctx coinbase signer i tx ls :
  exists rest,
    trace (bundleIter ctx coinbase signer i tx ls) = EvCtxErr i :: rest.
Proof.
  unfold bundleIter.
  match goal with
  | |- context [bind (emit ?ev) ?k] =>
      destruct (bind_trace (emit ev) k) as [t2 Ht]
  end.
  exists t2. exact Ht.
Qed.

(** A fired signal ends the iteration at the check. *)
Lemma bundleIter_cancelled ctx coinbase signer i tx ls e :
  CtxErr ctx i = Some e ->
  bundleIter ctx coinbase signer i tx ls = ([EvCtxErr i], Err e).
Proof. intros H. unfold bundleIter. rewrite H. reflexivity. Qed.

End LoopFacts.

(** ** Runs of the second loop *)

Section RunFacts.
Context `{X : Externals}.
Variables (ctx : Context) (coinbase : Address) (signer : Signer).

(** Induction over a loop that runs to its end. *)
Lemma bundleLoop_Ok_ind
    (P : Z -> list Transaction -> LoopState -> LoopState -> list Event -> Prop) :
  (forall i ls, P i [] ls ls []) ->
  (forall i tx rest ls ls1 ls2 t1 t2,
     bundleIter ctx coinbase signer i tx ls = (t1, Ok ls1) ->
     bundleLoop ctx coinbase signer (i + 1) rest ls1 = (t2, Ok ls2) ->
     P (i + 1) rest ls1 ls2 t2 ->
     P i (tx :: rest) ls ls2 (t1 ++ t2)) ->
  forall txs i ls t ls',
    bundleLoop ctx coinbase signer i txs ls = (t, Ok ls') -> P i txs ls ls' t.
Proof.
  intros Hnil Hcons txs.
  induction txs as [| tx rest IH]; intros i ls t ls' H.
  - injection H as <- <-. apply Hnil.
  - cbn [bundleLoop] in H.
    apply bind_Ok_inv in H as (t1 & ls1 & t2 & Hiter & Hloop & ->).
    eapply Hcons; eauto.
Qed.

(** A loop that ran through a prefix continues with the rest. *)
Lemma bundleLoop_prefix (pre : list Transaction) :
  forall i ls tpre ls' rest,
    bundleLoop ctx coinbase signer i pre ls = (tpre, Ok ls') ->
    bundleLoop ctx coinbase signer i (pre ++ rest) ls
    = bind (tpre, Ok ls')
        (bundleLoop ctx coinbase signer (i + Z.of_nat (length pre)) rest).
Proof.
  induction pre as [| tx pre IH]; intros i ls tpre ls' rest H.
  - injection H as <- <-. cbn [app length Z.of_nat]. rewrite Z.add_0_r.
    unfold bind. destruct (bundleLoop _ _ _ i rest ls). reflexivity.
  - cbn [bundleLoop] in H.
    apply bind_Ok_inv in H as (t1 & ls1 & t2 & Hiter & Hloop & ->).
    cbn [app bundleLoop]. rewrite Hiter.
    cbn [bind]. rewrite (IH _ _ _ _ rest Hloop).
    replace (i + Z.of_nat (length (tx :: pre)))
      with (i + 1 + Z.of_nat (length pre)) by (cbn [length]; lia).
    cbn [bind].
    destruct (bundleLoop _ _ _ (i + 1 + Z.of_nat (length pre)) rest ls').
    rewrite app_assoc. reflexivity.
Qed.

(** A loop that runs to its end adds one entry per transaction. *)
Lemma bundleLoop_results_length txs i ls t ls' :
  bundleLoop ctx coinbase signer i txs ls = (t, Ok ls') ->
  length (results ls') = (length (results ls) + length txs)%nat.
Proof.
  revert txs i ls t ls'.
  apply (bundleLoop_Ok_ind
           (fun _ txs ls ls' _ =>
              length (results ls') = (length (results ls) + length txs)%nat)).
  - intros. cbn. lia.
  - intros i tx rest ls ls1 ls2 t1 t2 Hiter _ IH.
    apply bundleIter_Ok_inv in Hiter
      as (? & ? & ? & ? & ? & ? & ? & entry & ? & _ & _ & _ & _ & _ & -> & _).
    cbn [results] in IH. rewrite IH, length_app. cbn. lia.
Qed.

(** What a loop that runs to its end has accumulated: one entry per
    transaction, in order, each with the gas its receipt reports; the
    64-bit sum of those; the bytes of the hashes, in order.  The header
    keeps everything but its gas counter. *)
Lemma bundleLoop_accumulates txs i ls t ls' :
  bundleLoop ctx coinbase signer i txs ls = (t, Ok ls') ->
  exists entries gs,
    results ls' = results ls ++ entries /\
    Forall2 (fun tx e => e !! "txHash" = Some (VStr (HashString (TxHash tx))))
      txs entries /\
    Forall2 (fun e g => e !! "gasUsed" = Some (VU64 g)) entries gs /\
    wrap64 (totalGasUsed ls') = wrap64 (totalGasUsed ls + sumZ gs) /\
    bundleHash ls' = bundleHash ls ++ concat (map TxHash txs) /\
    setGasUsed (header ls') 0 = setGasUsed (header ls) 0.
Proof.
  revert txs i ls t ls'.
  apply (bundleLoop_Ok_ind
    (fun _ txs ls ls' _ =>
       exists entries gs,
         results ls' = results ls ++ entries /\
         Forall2 (fun tx e =>
                    e !! "txHash" = Some (VStr (HashString (TxHash tx))))
           txs entries /\
         Forall2 (fun e g => e !! "gasUsed" = Some (VU64 g)) entries gs /\
         wrap64 (totalGasUsed ls') = wrap64 (totalGasUsed ls + sumZ gs) /\
         bundleHash ls' = bundleHash ls ++ concat (map TxHash txs) /\
         setGasUsed (header ls') 0 = setGasUsed (header ls) 0)).
  - intros i ls. exists [], []. cbn [sumZ foldr map concat].
    rewrite !app_nil_r, Z.add_0_r. repeat split; constructor.
  - intros i tx rest ls ls1 ls2 t1 t2 Hiter _
      (entries & gs & Hres & Hhash & Hgas & Htot & Hbh & Hhdr).
    apply bundleIter_Ok_inv in Hiter
      as (evm & msg & receipt & result & gp2 & state2 & used2 & entry & tipv
          & _ & _ & _ & Hentry & _ & -> & _).
    cbn [results totalGasUsed bundleHash header] in *.
    apply entry_identity in Hentry as [Hid Hg].
    exists (entry :: entries), (Receipt_GasUsed receipt :: gs).
    repeat split.
    + rewrite Hres, <- app_assoc. reflexivity.
    + constructor; assumption.
    + constructor; assumption.
    + rewrite Htot, wrap64_add_l. f_equal.
      unfold sumZ. cbn [foldr]. lia.
    + rewrite Hbh, <- app_assoc. reflexivity.
    + rewrite Hhdr. reflexivity.
Qed.

(** The loop makes no call but those of its iterations. *)
Lemma bundleIter_trace_kind i tx ls :
  Forall (fun ev => isLoopEvent ev = true)
    (trace (bundleIter ctx coinbase signer i tx ls)).
Proof.
  unfold bundleIter.
  destruct (CtxErr ctx i) as [e |]; [repeat constructor |].
  destruct (GetEVM ctx _ (header ls) tx) as [e | [evm msg]];
    [repeat constructor |].
  destruct (ApplyTransactionWithResult msg _ _ _ _ _ evm)
    as [e | [[[[receipt result] gp2] state2] used2]]; [repeat constructor |].
  destruct (processTransactionResult tx receipt result signer _ _ state2)
    as [entry | e | | m]; try (repeat constructor).
  cbn [lift bind emit].
  destruct (EffectiveGasTip tx _) as [tipv [e |]]; repeat constructor.
Qed.

Lemma bundleLoop_trace_kind txs :
  forall i ls,
    Forall (fun ev => isLoopEvent ev = true)
      (trace (bundleLoop ctx coinbase signer i txs ls)).
Proof.
  induction txs as [| tx rest IH]; intros i ls; [constructor |].
  cbn [bundleLoop].
  pose proof (bundleIter_trace_kind i tx ls) as Hiter.
  destruct (bundleIter ctx coinbase signer i tx ls) as [t1 [ls1 | e | | m]];
    cbn [bind trace fst] in *; try assumption.
  specialize (IH (i + 1) ls1).
  destruct (bundleLoop ctx coinbase signer (i + 1) rest ls1) as [t2 r].
  cbn [trace fst] in *. apply Forall_app. split; assumption.
Qed.

End RunFacts.

(** ** The whole call *)

Section CallFacts.
Context `{X : Externals}.

(** The fields of a final result. *)
Lemma final_fields rs st bal cb fees total parent bh ret_ :
  prepareFinalResult rs st bal cb fees total parent bh = Ok ret_ ->
  let diff := GetBalance st cb - bal in
  ret_ !! "results" = Some (RResults rs) /\
  ret_ !! "stateBlockNumber" = Some (RI64 (bigInt64 (eth_Number parent))) /\
  ret_ !! "totalGasUsed" = Some (RU64 total) /\
  ret_ !! "coinbaseDiff" = Some (RStr (bigString diff)) /\
  ret_ !! "gasFees" = Some (RStr (bigString fees)) /\
  ret_ !! "ethSentToCoinbase" = Some (RStr (bigString (diff - fees))) /\
  (exists q, bigDiv diff (toInt64 total) = Some q /\
             ret_ !! "bundleGasPrice" = Some (RStr (bigString q))) /\
  ret_ !! "bundleHash" = Some (RStr ("0x" +:+ Bytes2Hex (Keccak256 bh))).
Proof.
  intros H diff. unfold prepareFinalResult in H. subst diff.
  destruct (bigDiv (GetBalance st cb - bal) (toInt64 total)) as [q |] eqn:Hdiv;
    [| discriminate H].
  injection H as <-.
  repeat split; try reflexivity.
  exists q. split; reflexivity.
Qed.

(** The division by the cumulative gas used decides between a result and
    a panic. *)
Lemma prepareFinalResult_outcome rs st bal cb fees total parent bh :
  (toInt64 total = 0 ->
   prepareFinalResult rs st bal cb fees total parent bh
   = Panic "division by zero") /\
  (toInt64 total <> 0 ->
   exists ret_,
     prepareFinalResult rs st bal cb fees total parent bh = Ok ret_).
Proof.
  unfold prepareFinalResult. split; intros Hg.
  - rewrite Hg, bigDiv_zero. reflexivity.
  - destruct (bigDiv (GetBalance st cb - bal) (toInt64 total)) as [q |] eqn:Hdiv.
    + eexists. reflexivity.
    + apply bigDiv_None in Hdiv. contradiction.
Qed.

(** The call, once the request is accepted, its encodings decode and the
    state is acquired: the decoding calls, the acquisition, then the loop
    and the final result. *)
Lemma CallBundle_run ctx args txs state0 parent :
  arg_Txs args <> [] ->
  arg_BlockNumber args <> 0 ->
  Forall2 decodes (arg_Txs args) txs ->
  StateAndHeaderByNumberOrHash (bundleContext ctx args)
    (arg_StateBlockNumberOrHash args) = (Some state0, Some parent, None) ->
  CallBundle ctx args
  = bind (map EvUnmarshalBinary (arg_Txs args)
            ++ [EvStateAndHeader (bundleContext ctx args)
                  (arg_StateBlockNumberOrHash args)],
          Ok tt)
      (fun _ =>
         let! ls := bundleLoop (bundleContext ctx args)
                      (Coinbase (bundleHeader args parent))
                      (bundleSigner args parent) 0 txs
                      (bundleStart args state0 parent) in
         lift (prepareFinalResult (results ls) (state ls)
                 (GetBalance state0 (Coinbase (bundleHeader args parent)))
                 (Coinbase (bundleHeader args parent)) (gasFees ls)
                 (totalGasUsed ls) (EthHeader parent) (bundleHash ls))).
Proof.
  intros Hne Hbn Hdec Hst. unfold CallBundle.
  destruct (arg_Txs args) as [| enc encs] eqn:Htxs; [contradiction |].
  cbn [length Nat.eqb].
  destruct (Z.eqb_spec (arg_BlockNumber args) 0) as [| _]; [contradiction |].
  rewrite (decodeTxs_all _ [] txs Hdec). cbn [app bind emit].
  rewrite Hst.
  fold (bundleStart args state0 parent). fold (bundleSigner args parent).
  match goal with
  | |- (let '(t', r) := (let '(t2, r2) := ?m in _) in _) = _ =>
      destruct m as [tl [r | e | | msg]]
  end; cbn [bind app]; rewrite <- ?app_assoc; reflexivity.
Qed.

(** A call that returned a result went through every stage. *)
Lemma CallBundle_Ok_inv ctx args t ret_ :
  CallBundle ctx args = (t, Ok ret_) ->
  exists txs state0 parent tl ls,
    arg_Txs args <> [] /\
    arg_BlockNumber args <> 0 /\
    Forall2 decodes (arg_Txs args) txs /\
    StateAndHeaderByNumberOrHash (bundleContext ctx args)
      (arg_StateBlockNumberOrHash args) = (Some state0, Some parent, None) /\
    bundleLoop (bundleContext ctx args) (Coinbase (bundleHeader args parent))
      (bundleSigner args parent) 0 txs (bundleStart args state0 parent)
    = (tl, Ok ls) /\
    prepareFinalResult (results ls) (state ls)
      (GetBalance state0 (Coinbase (bundleHeader args parent)))
      (Coinbase (bundleHeader args parent)) (gasFees ls) (totalGasUsed ls)
      (EthHeader parent) (bundleHash ls) = Ok ret_ /\
    t = map EvUnmarshalBinary (arg_Txs args)
        ++ EvStateAndHeader (bundleContext ctx args)
             (arg_StateBlockNumberOrHash args) :: tl.
Proof.
  intros H.
  assert (Hne : arg_Txs args <> []).
  { intros Hnil. unfold CallBundle in H. rewrite Hnil in H. discriminate. }
  assert (Hbn : arg_BlockNumber args <> 0).
  { intros Hz. unfold CallBundle in H.
    destruct (arg_Txs args); [contradiction |].
    rewrite Hz in H. discriminate. }
  destruct (decodes_or_fails (arg_Txs args))
    as [(txs & Hdec) | (pre & bad & post & txs & e & Hsplit & Hdec & Hbad)].
  2: { unfold CallBundle in H.
       destruct (arg_Txs args) as [| enc encs] eqn:Htxs; [contradiction |].
       cbn [length Nat.eqb] in H.
       destruct (Z.eqb_spec (arg_BlockNumber args) 0); [contradiction |].
       rewrite Hsplit, (decodeTxs_first_failure pre bad post [] txs e Hdec Hbad)
         in H.
       discriminate. }
  destruct (StateAndHeaderByNumberOrHash (bundleContext ctx args)
              (arg_StateBlockNumberOrHash args))
    as [[[state0 |] [parent |]] [e |]] eqn:Hst.
  all: try (exfalso; unfold CallBundle in H;
            destruct (arg_Txs args) as [| enc encs] eqn:Htxs; [contradiction |];
            cbn [length Nat.eqb] in H;
            destruct (Z.eqb_spec (arg_BlockNumber args) 0); [contradiction |];
            rewrite (decodeTxs_all _ [] txs Hdec) in H;
            cbn [app bind emit] in H; rewrite Hst in H;
            cbn in H; discriminate).
  rewrite (CallBundle_run ctx args txs state0 parent Hne Hbn Hdec Hst) in H.
  apply bind_Ok_inv in H as (t1 & [] & t2 & [= <-] & H & ->).
  apply bind_Ok_inv in H as (tl & ls & t3 & Hloop & Hfin & ->).
  unfold lift in Hfin. injection Hfin as <- Hfin.
  exists txs, state0, parent, tl, ls.
  repeat split; auto.
  rewrite app_nil_r, <- app_assoc. reflexivity.
Qed.

End CallFacts.

(** ** Error messages *)

Lemma string_length_app (s1 s2 : string) :
  String.length (s1 +:+ s2) = (String.length s1 + String.length s2)%nat.
Proof. induction s1 as [| c s1 IH]; simpl; [reflexivity | now rewrite IH]. Qed.

(** An error wrapped with the transaction hash is never the bare error. *)
Lemma errTxhash_neq `{X : Externals} (err : error) (tx : Transaction) :
  err <> errTxhash err tx.
Proof.
  intros H. apply (f_equal String.length) in H.
  unfold errTxhash in H. rewrite !string_length_app in H. simpl in H. lia.
Qed.

(** ** Safety of the price computations *)

(** C1 (refuted on the code).  Neither price computation is guarded.  For
    a receipt that reports zero gas used, [processTransactionResult] panics
    in the division that computes ["gasPrice"]; for a cumulative gas used of
    zero, [prepareFinalResult] panics in the division that computes
    ["bundleGasPrice"].  No entry and no result is produced in either
    case. *)
Theorem price_divisions_unguarded `{X : Externals} :
  (forall tx receipt result signer hdr bal st,
     Receipt_GasUsed receipt = 0 ->
     processTransactionResult tx receipt result signer hdr bal st
     = Panic "division by zero") /\
  (forall rs st bal cb fees parent bh,
     prepareFinalResult rs st bal cb fees 0 parent bh
     = Panic "division by zero").
Proof.
  split.
  - intros tx receipt result signer hdr bal st Hg.
    apply processTransactionResult_outcome. rewrite Hg. reflexivity.
  - intros. apply prepareFinalResult_outcome. reflexivity.
Qed.

(** The whole call on a bundle of one transaction that applies with zero
    gas used: the call panics after the engine has applied it. *)
Example CallBundle_zero_gas_run :
  CallBundle (X := Toy.world) (CallerCtx 0) (Toy.request [[x00]] 101 None None)
  = (EvUnmarshalBinary [x00]
       :: EvStateAndHeader (WithTimeout (CallerCtx 0) 5000000000)
            (BlockNumberOrHashWithNumber 100)
       :: iterTrace (X := Toy.world) 0 [x00]
            (bundleStart (X := Toy.world) (Toy.request [[x00]] 101 None None) 1000000
               (Toy.parentAt 100)),
     Panic "division by zero").
Proof. vm_compute. reflexivity. Qed.

(** With a non-zero divisor the price is the Euclidean quotient of the
    coinbase difference by the gas used. *)
Lemma gasPrice_defined `{X : Externals} tx receipt result signer hdr bal st :
  toInt64 (Receipt_GasUsed receipt) <> 0 ->
  exists entry q,
    processTransactionResult tx receipt result signer hdr bal st = Ok entry /\
    entry !! "gasPrice" = Some (VStr (bigString q)) /\
    0 <= (GetBalance st (eth_Coinbase hdr) - bal)
         - q * toInt64 (Receipt_GasUsed receipt)
      < Z.abs (toInt64 (Receipt_GasUsed receipt)).
Proof.
  intros Hg.
  destruct (processTransactionResult_outcome tx receipt result signer hdr bal st)
    as [_ Hok].
  destruct (Hok Hg) as [entry Hentry].
  destruct (entry_accounting _ _ _ _ _ _ _ _ Hentry)
    as (_ & _ & _ & q & Hdiv & Hprice).
  exists entry, q. repeat split; auto; apply (bigDiv_euclid _ _ _ Hdiv).
Qed.

(** ** Request validation *)

(** C2 (as the code has it).  An empty transaction list is rejected with
    "bundle missing txs" and a target block number equal to zero with
    "bundle missing blockNumber", both before any call is made.  Every
    other request is accepted and the call goes on to decode the first
    transaction: a negative target block number is not rejected, and no
    override is validated (the coinbase string is converted by the total
    function [HexToAddress]). *)
Theorem CallBundle_validation `{X : Externals} (ctx : Context)
    (args : CallBundleArgs) :
  (arg_Txs args = [] ->
   CallBundle ctx args = ([], Err "bundle missing txs")) /\
  (arg_Txs args <> [] -> arg_BlockNumber args = 0 ->
   CallBundle ctx args = ([], Err "bundle missing blockNumber")) /\
  (arg_Txs args <> [] -> arg_BlockNumber args <> 0 ->
   exists enc rest t,
     arg_Txs args = enc :: rest /\
     trace (CallBundle ctx args) = EvUnmarshalBinary enc :: t).
Proof.
  unfold CallBundle. repeat split.
  - intros ->. reflexivity.
  - intros Hne ->. destruct (arg_Txs args); [contradiction | reflexivity].
  - intros Hne Hbn.
    destruct (arg_Txs args) as [| enc rest]; [contradiction |].
    cbn [length Nat.eqb].
    destruct (Z.eqb_spec (arg_BlockNumber args) 0); [contradiction |].
    exists enc, rest.
    match goal with
    | |- context [bind (decodeTxs ?l ?a) ?k] =>
        destruct (bind_trace (decodeTxs l a) k) as [t2 Ht]; rewrite Ht
    end.
    cbn [decodeTxs].
    match goal with
    | |- context [bind (emit ?ev) ?k] =>
        destruct (bind_trace (emit ev) k) as [t3 Ht3]; rewrite Ht3
    end.
    eexists. split; reflexivity.
Qed.

(** C2, as stated, fails: a request with target block number -1 and the
    coinbase override "not-an-address" is not rejected; the call runs its
    transaction and returns a result. *)
Lemma CallBundle_accepts_negative_block_and_any_coinbase :
  arg_BlockNumber (Toy.request [[x01]] (-1) (Some "not-an-address") None) < 0
  /\ isOk (outcome (CallBundle (X := Toy.world) (CallerCtx 0)
                      (Toy.request [[x01]] (-1) (Some "not-an-address") None)))
     = true
  /\ Exists (fun ev => isExecution ev = true)
       (trace (CallBundle (X := Toy.world) (CallerCtx 0)
                 (Toy.request [[x01]] (-1) (Some "not-an-address") None))).
Proof.
  split; [reflexivity |]. split; [vm_compute; reflexivity |].
  vm_compute. do 4 apply Exists_cons_tl. apply Exists_cons_hd. reflexivity.
Qed.

(** ** Failures inside the loop *)

(** C3 (refuted on the code).  When [GetEVM] fails for a transaction
    (message construction or the backend's EVM set-up), the iteration
    returns that error as it is: the transaction hash is not added to it. *)
Theorem GetEVM_failure_not_annotated `{X : Externals} ctx coinbase signer i
    tx ls err :
  CtxErr ctx i = None ->
  GetEVM ctx (SetTxContext (state ls) (TxHash tx) i) (header ls) tx = inl err ->
  outcome (bundleIter ctx coinbase signer i tx ls) = Err err /\
  err <> errTxhash err tx.
Proof.
  intros Hctx Hevm. split; [| apply errTxhash_neq].
  unfold bundleIter. rewrite Hctx, Hevm. reflexivity.
Qed.

Lemma GetEVM_failure_not_annotated_witness :
  outcome (bundleIter (X := Toy.world) (CallerCtx 0) (repeat xcc 20%nat) tt 0
             [x04] (bundleStart (X := Toy.world) (Toy.request [[x04]] 101 None None) 1000000
                      (Toy.parentAt 100)))
  = Err "invalid sender"
  /\ "invalid sender"
     <> errTxhash (X := Toy.world) "invalid sender" [x04].
Proof.
  apply (GetEVM_failure_not_annotated (X := Toy.world)); reflexivity.
Defined.

(** The whole call on a bundle whose only transaction has no valid
    sender: the error comes back bare. *)
Example CallBundle_GetEVM_failure_run :
  outcome (CallBundle (X := Toy.world) (CallerCtx 0)
             (Toy.request [[x04]] 101 None None))
  = Err "invalid sender".
Proof. vm_compute. reflexivity. Qed.

(** The sibling path: when the engine invocation fails, the error is
    wrapped with the transaction hash and the iteration ends there. *)
Lemma Apply_failure_annotated `{X : Externals} ctx coinbase signer i tx ls
    evm msg err :
  CtxErr ctx i = None ->
  GetEVM ctx (SetTxContext (state ls) (TxHash tx) i) (header ls) tx
  = inr (evm, msg) ->
  ApplyTransactionWithResult msg (gp ls)
    (SetTxContext (state ls) (TxHash tx) i) (header ls) tx
    (GasUsed (header ls)) evm = inl err ->
  outcome (bundleIter ctx coinbase signer i tx ls) = Err (errTxhash err tx).
Proof.
  intros Hctx Hevm Happ. unfold bundleIter. rewrite Hctx, Hevm, Happ.
  reflexivity.
Qed.

(** X12.  A failure inside the VM is recorded in the entry, and the loop
    goes on: when the engine applies a transaction whose execution ends
    with an error (a revert, out of gas), the iteration ends with [Ok] and
    adds an entry with ["error"], without ["value"], and with ["revert"]
    when there is revert data. *)
Lemma in_VM_failure_recorded `{X : Externals} ctx coinbase signer i tx ls
    evm msg receipt result gp2 state2 used2 tipv e :
  CtxErr ctx i = None ->
  GetEVM ctx (SetTxContext (state ls) (TxHash tx) i) (header ls) tx
  = inr (evm, msg) ->
  ApplyTransactionWithResult msg (gp ls)
    (SetTxContext (state ls) (TxHash tx) i) (header ls) tx
    (GasUsed (header ls)) evm
  = inr (receipt, result, gp2, state2, used2) ->
  Result_Err result = Some e ->
  toInt64 (Receipt_GasUsed receipt) <> 0 ->
  EffectiveGasTip tx (BaseFee (header ls)) = (tipv, None) ->
  exists entry t ls',
    bundleIter ctx coinbase signer i tx ls = (t, Ok ls') /\
    results ls' = results ls ++ [entry] /\
    entry !! "error" = Some (VStr e) /\
    entry !! "value" = None /\
    entry !! "revert" =
      (if (0 <? length (Result_Revert result))%nat
       then Some (VStr (string_of_list_byte (Result_Revert result)))
       else None).
Proof.
  intros Hctx Hevm Happ Herr Hgas Htip.
  destruct (bundleIter_applied ctx coinbase signer i tx ls evm msg receipt
              result gp2 state2 used2 tipv Hctx Hevm Happ Hgas Htip)
    as (entry & Hentry & Hiter).
  pose proof (entry_execution _ _ _ _ _ _ _ _ Hentry) as Hexec.
  rewrite Herr in Hexec. destruct Hexec as (He & Hv & Hr).
  eexists entry, _, _. split; [exact Hiter |].
  cbn [results]. repeat split; auto.
Qed.

(** A reverting transaction followed by a succeeding one: two entries, the
    first with ["error"] and ["revert"] and no ["value"], the second with
    ["value"]; the call returns a result. *)
Example CallBundle_revert_then_success_run :
  exists ret_ e1 e2,
    outcome (CallBundle (X := Toy.world) (CallerCtx 0)
               (Toy.request [[x02]; [x01]] 101 None None)) = Ok ret_ /\
    ret_ !! "results" = Some (RResults [e1; e2]) /\
    e1 !! "error" = Some (VStr "execution reverted") /\
    e1 !! "revert" = Some (VStr "no") /\
    e1 !! "value" = None /\
    e2 !! "value" = Some (VStr "0x2a") /\
    e2 !! "error" = None.
Proof.
  eexists _, _, _. split; [vm_compute; reflexivity |].
  repeat split; vm_compute; reflexivity.
Qed.

(** ** Economic accounting *)

Section Accounting.
Context `{X : Externals} `{!ExternalsOK X}.

(** The figures of one iteration that runs to its end. *)
Lemma bundleIter_accounting ctx signer i tx ls t ls' :
  bundleIter ctx (Coinbase (header ls)) signer i tx ls = (t, Ok ls') ->
  exists entry g tipv,
    results ls' = results ls ++ [entry] /\
    entry !! "gasUsed" = Some (VU64 g) /\
    EffectiveGasTip tx (BaseFee (header ls)) = (tipv, None) /\
    gasFees ls' = gasFees ls + toInt64 g * tipv /\
    setGasUsed (header ls') 0 = setGasUsed (header ls) 0 /\
    let diff := GetBalance (state ls') (Coinbase (header ls))
                - GetBalance (state ls) (Coinbase (header ls)) in
    entry !! "coinbaseDiff" = Some (VStr (bigString diff)) /\
    entry !! "gasFees" = Some (VStr (bigString (toInt64 g * tipv))) /\
    entry !! "ethSentToCoinbase"
    = Some (VStr (bigString (diff - toInt64 g * tipv))).
Proof.
  intros Hiter.
  apply bundleIter_Ok_inv in Hiter
    as (evm & msg & receipt & result & gp2 & state2 & used2 & entry & tipv
        & _ & _ & _ & Hentry & Htip & -> & _).
  pose proof (entry_identity _ _ _ _ _ _ _ _ Hentry) as [_ Hg].
  pose proof (entry_accounting _ _ _ _ _ _ _ _ Hentry) as (Hd & Hf & He & _).
  cbn zeta in Hd, Hf, He.
  rewrite EthHeader_Coinbase in Hd, He.
  rewrite EthHeader_BaseFee in Hf, He.
  cbn [setGasUsed Coinbase BaseFee] in Hd, Hf, He.
  rewrite Htip in Hf, He. cbn [fst] in Hf, He.
  exists entry, (Receipt_GasUsed receipt), tipv.
  cbn [results gasFees state header]. repeat split; auto.
Qed.

(** The fees a loop that runs to its end has added up are those of its
    entries. *)
Lemma bundleLoop_accounting ctx coinbase signer txs i ls t ls' :
  coinbase = Coinbase (header ls) ->
  bundleLoop ctx coinbase signer i txs ls = (t, Ok ls') ->
  exists entries fees,
    results ls' = results ls ++ entries /\
    Forall2 (fun e f => e !! "gasFees" = Some (VStr (bigString f)))
      entries fees /\
    gasFees ls' = gasFees ls + sumZ fees.
Proof.
  intros Hcb Hloop. revert Hcb. pattern i, txs, ls, ls', t.
  revert txs i ls t ls' Hloop.
  apply (bundleLoop_Ok_ind ctx coinbase signer).
  - intros i ls _. exists [], []. cbn [sumZ foldr].
    rewrite app_nil_r, Z.add_0_r. repeat split; constructor.
  - intros i tx rest ls ls1 ls2 t1 t2 Hiter _ IH Hcb. subst coinbase.
    apply bundleIter_accounting in Hiter
      as (entry & g & tipv & Hres & _ & _ & Hfees & Hhdr & _ & Hf & _).
    destruct IH as (entries & fees & Hres2 & Hall & Hfees2).
    { apply (f_equal Coinbase) in Hhdr. cbn in Hhdr. congruence. }
    exists (entry :: entries), (toInt64 g * tipv :: fees).
    split; [| split].
    + rewrite Hres2, Hres, <- app_assoc. reflexivity.
    + constructor; assumption.
    + rewrite Hfees2, Hfees. unfold sumZ. cbn [foldr]. lia.
Qed.

End Accounting.

(** C4.  Per transaction: an iteration that applies a transaction reports
    as ["coinbaseDiff"] the coinbase balance after it minus the balance read
    at the top of the iteration, as ["gasFees"] the gas used (converted to
    [int64], which changes nothing below 2^63) times the effective gas tip
    under the header's base fee, and as ["ethSentToCoinbase"] their
    difference.  Bundle-wide: a call that returns reports as
    ["coinbaseDiff"] the balance in the state after the loop minus the
    balance in the state as acquired, as ["gasFees"] the sum of the entries'
    fees, and as ["ethSentToCoinbase"] their difference. *)
Theorem coinbase_accounting `{X : Externals} `{!ExternalsOK X}
    (ctx : Context) :
  (forall signer i tx ls t ls',
     bundleIter ctx (Coinbase (header ls)) signer i tx ls = (t, Ok ls') ->
     IterAccounted tx ls ls') /\
  (forall args t ret_,
     CallBundle ctx args = (t, Ok ret_) -> BundleAccounted ctx args ret_).
Proof.
  unfold IterAccounted, BundleAccounted. split.
  - intros signer i tx ls t ls' Hiter.
    apply bundleIter_accounting in Hiter
      as (entry & g & tipv & Hres & Hg & Htip & _ & _ & Hd & Hf & He).
    exists entry, g, tipv. cbn zeta. repeat split; auto.
    intros Hsmall. now rewrite toInt64_small.
  - intros args t ret_ Hcall.
    apply CallBundle_Ok_inv in Hcall
      as (txs & state0 & parent & tl & ls & _ & _ & Hdec & Hst & Hloop
          & Hfin & _).
    pose proof (bundleLoop_accounting _ _ _ _ _ _ _ _ eq_refl Hloop)
      as (entries & fees & Hres & Hall & Hfees).
    cbn [bundleStart results gasFees] in Hres, Hfees.
    apply final_fields in Hfin as (Hr & _ & _ & Hd & Hf & He & _).
    exists txs, state0, parent, tl, ls, entries, fees. cbn zeta.
    rewrite Hres in Hr. cbn [app] in Hr.
    rewrite Hfees, Z.add_0_l in Hf, He.
    repeat split; auto.
Qed.

Lemma Toy_ok : ExternalsOK Toy.world.
Proof.
  split; try reflexivity.
  intros tx. cbn. unfold Toy.txHash.
  rewrite length_firstn, length_app, repeat_length. lia.
Qed.

Lemma coinbase_accounting_witness :
  BundleAccounted (X := Toy.world) (CallerCtx 0)
    (Toy.request [[x01]; [x02]] 101 None None)
    (resultOf (CallBundle (X := Toy.world) (CallerCtx 0)
                 (Toy.request [[x01]; [x02]] 101 None None))).
Proof.
  apply (proj2 (coinbase_accounting (X := Toy.world) (ExternalsOK0 := Toy_ok)
                  (CallerCtx 0))
           _ (trace (CallBundle (X := Toy.world) (CallerCtx 0)
                       (Toy.request [[x01]; [x02]] 101 None None)))).
  vm_compute. reflexivity.
Defined.


(** ** The calls of a bundle call, in order *)

Section TraceFacts.
Context `{X : Externals}.

(** An iteration makes its engine calls with the header it was given, and
    hands on a header that differs at most in the gas counter. *)
Lemma bundleIter_headers ctx coinbase signer i tx ls :
  Forall (fun ev => forall h, eventHeader ev = Some h -> h = header ls)
    (trace (bundleIter ctx coinbase signer i tx ls)) /\
  (forall ls', outcome (bundleIter ctx coinbase signer i tx ls) = Ok ls' ->
               setGasUsed (header ls') 0 = setGasUsed (header ls) 0).
Proof.
  split.
  - unfold bundleIter.
    assert (Hnone : forall ev : Event,
               eventHeader ev = None ->
               forall h, eventHeader ev = Some h -> h = header ls)
      by (intros ev -> h; discriminate).
    assert (Hsome : forall ev : Event,
               eventHeader ev = Some (header ls) ->
               forall h, eventHeader ev = Some h -> h = header ls)
      by (intros ev -> h [= <-]; reflexivity).
    destruct (CtxErr ctx i) as [e |];
      [repeat constructor; apply Hnone; reflexivity |].
    destruct (GetEVM ctx _ (header ls) tx) as [e | [evm msg]].
    { cbn. repeat constructor; first [now apply Hnone | now apply Hsome]. }
    destruct (ApplyTransactionWithResult msg _ _ _ _ _ evm)
      as [e | [[[[receipt result] gp2] state2] used2]].
    { cbn. repeat constructor; first [now apply Hnone | now apply Hsome]. }
    destruct (processTransactionResult tx receipt result signer _ _ state2)
      as [entry | e | | m];
      try (cbn; repeat constructor; first [now apply Hnone | now apply Hsome]).
    cbn [lift bind emit].
    destruct (EffectiveGasTip tx _) as [tipv [e |]];
      cbn; repeat constructor; first [now apply Hnone | now apply Hsome].
  - intros ls' H.
    destruct (bundleIter ctx coinbase signer i tx ls) as [t o] eqn:Hiter.
    cbn [outcome snd] in H. subst o.
    apply bundleIter_Ok_inv in Hiter
      as (? & ? & ? & ? & ? & ? & ? & ? & ? & _ & _ & _ & _ & _ & -> & _).
    reflexivity.
Qed.

(** Every engine call of the loop is made with the header the loop started
    with, up to the gas counter. *)
Lemma bundleLoop_headers ctx coinbase signer txs :
  forall i ls,
    Forall (fun ev => forall h, eventHeader ev = Some h ->
                                setGasUsed h 0 = setGasUsed (header ls) 0)
      (trace (bundleLoop ctx coinbase signer i txs ls)).
Proof.
  induction txs as [| tx rest IH]; intros i ls; [constructor |].
  cbn [bundleLoop].
  destruct (bundleIter_headers ctx coinbase signer i tx ls) as [Hev Hnext].
  destruct (bundleIter ctx coinbase signer i tx ls) as [t1 o].
  cbn [trace fst outcome snd] in *.
  assert (Ht1 : Forall (fun ev => forall h, eventHeader ev = Some h ->
                          setGasUsed h 0 = setGasUsed (header ls) 0) t1).
  { eapply Forall_impl; [exact Hev |]. intros ev Hh h Heq.
    now rewrite (Hh h Heq). }
  destruct o as [ls1 | e | | m]; cbn [bind fst]; try exact Ht1.
  specialize (IH (i + 1) ls1). specialize (Hnext ls1 eq_refl).
  destruct (bundleLoop ctx coinbase signer (i + 1) rest ls1) as [t2 r].
  cbn [trace fst] in *. apply Forall_app. split; [exact Ht1 |].
  eapply Forall_impl; [exact IH |]. intros ev Hh h Heq.
  rewrite (Hh h Heq). exact Hnext.
Qed.

Lemma decode_events_kind (encoded : list (list byte)) :
  Forall (fun ev => isDecode ev = true) (map EvUnmarshalBinary encoded).
Proof. induction encoded; constructor; auto. Qed.

(** The trace of a call whose request is accepted and whose encodings all
    decode: the decoding calls, the state acquisition and, when a state and
    a parent came back, the calls of the loop. *)
Lemma CallBundle_trace_decoded ctx args txs :
  arg_Txs args <> [] ->
  arg_BlockNumber args <> 0 ->
  Forall2 decodes (arg_Txs args) txs ->
  exists tl,
    trace (CallBundle ctx args)
    = map EvUnmarshalBinary (arg_Txs args)
      ++ EvStateAndHeader (bundleContext ctx args)
           (arg_StateBlockNumberOrHash args) :: tl /\
    (tl = [] \/
     exists state0 parent,
       StateAndHeaderByNumberOrHash (bundleContext ctx args)
         (arg_StateBlockNumberOrHash args) = (Some state0, Some parent, None)
       /\ tl = trace (bundleLoop (bundleContext ctx args)
                        (Coinbase (bundleHeader args parent))
                        (bundleSigner args parent) 0 txs
                        (bundleStart args state0 parent))).
Proof.
  intros Hne Hbn Hdec.
  destruct (StateAndHeaderByNumberOrHash (bundleContext ctx args)
              (arg_StateBlockNumberOrHash args))
    as [[[state0 |] [parent |]] [e |]] eqn:Hst.
  all: try (exists []; split; [| left; reflexivity];
            unfold CallBundle;
            destruct (arg_Txs args) as [| enc0 encs0] eqn:Htxs;
              [contradiction |];
            cbn [length Nat.eqb];
            destruct (Z.eqb_spec (arg_BlockNumber args) 0); [contradiction |];
            rewrite (decodeTxs_all _ [] txs Hdec);
            cbn [app bind emit]; rewrite Hst; reflexivity).
  rewrite (CallBundle_run ctx args txs state0 parent Hne Hbn Hdec Hst).
  exists (trace (bundleLoop (bundleContext ctx args)
                   (Coinbase (bundleHeader args parent))
                   (bundleSigner args parent) 0 txs
                   (bundleStart args state0 parent))).
  split.
  - cbn [bind].
    destruct (bundleLoop _ _ _ 0 txs _) as [tl [ls | e | | m]];
      cbn [bind lift trace fst]; rewrite <- ?app_assoc, ?app_nil_r;
      reflexivity.
  - right. exists state0, parent. auto.
Qed.

(** The trace of a call that is rejected or meets an encoding that does
    not decode. *)
Lemma CallBundle_trace_undecoded ctx args :
  (forall txs, ~ Forall2 decodes (arg_Txs args) txs)
  \/ arg_Txs args = [] \/ arg_BlockNumber args = 0 ->
  Forall (fun ev => isDecode ev = true) (trace (CallBundle ctx args)).
Proof.
  intros Hcase. unfold CallBundle.
  destruct (arg_Txs args) as [| enc0 encs0] eqn:Htxs; [constructor |].
  cbn [length Nat.eqb].
  destruct (Z.eqb_spec (arg_BlockNumber args) 0) as [| Hbn]; [constructor |].
  destruct Hcase as [Hno | [Hnil | Hz]]; [| discriminate | contradiction].
  destruct (decodes_or_fails (enc0 :: encs0))
    as [(txs & Hdec) | (pre & bad & post & txs & e & Hsplit & Hdec & Hbad)].
  - destruct (Hno txs Hdec).
  - rewrite Hsplit.
    rewrite (decodeTxs_first_failure pre bad post [] txs e Hdec Hbad).
    cbn [bind trace fst]. apply decode_events_kind.
Qed.

End TraceFacts.

(** ** The synthetic header *)

Lemma setGasUsed_fields (h h' : EvmHeader) :
  setGasUsed h 0 = setGasUsed h' 0 ->
  ParentHash h = ParentHash h' /\ Number h = Number h' /\
  Time h = Time h' /\ Coinbase h = Coinbase h' /\
  GasLimit h = GasLimit h' /\ BaseFee h = BaseFee h'.
Proof.
  intros H. repeat split.
  - apply (f_equal ParentHash) in H. exact H.
  - apply (f_equal Number) in H. exact H.
  - apply (f_equal Time) in H. exact H.
  - apply (f_equal Coinbase) in H. exact H.
  - apply (f_equal GasLimit) in H. exact H.
  - apply (f_equal BaseFee) in H. exact H.
Qed.

Lemma bundleHeader_synthesized `{X : Externals} args parent :
  HeaderSynthesized args parent (bundleHeader args parent).
Proof. unfold HeaderSynthesized, bundleHeader. repeat split. Qed.

(** C5 (as the code has it).  Every engine call of a bundle call is made
    with a header built from the parent that the state reference resolved
    to: parent hash = the parent's own hash; number = the target number of
    the request; timestamp = the override, else the parent's timestamp + 1
    in 64-bit arithmetic; coinbase = [HexToAddress] of the override, else
    the parent's; gas limit = the override, else the parent's; base fee =
    the override, else the fee-market formula over the parent when London
    is active at the target number, else absent.  The timestamp is later
    than the parent's when there is no override (and the parent's is below
    the 64-bit maximum); an override is taken as it is. *)
Theorem execution_header `{X : Externals} ctx args ev h :
  In ev (trace (CallBundle ctx args)) ->
  eventHeader ev = Some h ->
  exists state0 parent,
    StateAndHeaderByNumberOrHash (bundleContext ctx args)
      (arg_StateBlockNumberOrHash args) = (Some state0, Some parent, None) /\
    HeaderSynthesized args parent h /\
    (arg_Timestamp args = None -> 0 <= Time parent < MaxUint64 ->
     Time parent < Time h).
Proof.
  intros Hin Hh.
  assert (Hnotdec : isDecode ev = false) by (destruct ev; try discriminate; reflexivity).
  assert (Hundec : ~ Forall (fun ev => isDecode ev = true)
                     (trace (CallBundle ctx args))).
  { intros Hall. rewrite List.Forall_forall in Hall.
    specialize (Hall ev Hin). congruence. }
  destruct (decodes_or_fails (arg_Txs args))
    as [(txs & Hdec) | (pre & bad & post & txs & e & Hsplit & Hdec & Hbad)].
  2: { exfalso. apply Hundec. unfold CallBundle.
       destruct (arg_Txs args) as [| enc0 encs0] eqn:Htxs; [constructor |].
       cbn [length Nat.eqb].
       destruct (Z.eqb_spec (arg_BlockNumber args) 0); [constructor |].
       rewrite Hsplit.
       rewrite (decodeTxs_first_failure pre bad post [] txs e Hdec Hbad).
       cbn [bind trace fst]. apply decode_events_kind. }
  assert (Hne : arg_Txs args <> []).
  { intros Hnil. apply Hundec. apply CallBundle_trace_undecoded. auto. }
  assert (Hbn : arg_BlockNumber args <> 0).
  { intros Hz. apply Hundec. apply CallBundle_trace_undecoded. auto. }
  destruct (CallBundle_trace_decoded ctx args txs Hne Hbn Hdec)
    as (tl & Htrace & Htl).
  rewrite Htrace in Hin. apply in_app_or in Hin as [Hin | Hin].
  { exfalso. apply in_map_iff in Hin as (x & <- & _). discriminate. }
  destruct Hin as [<- | Hin]; [discriminate |].
  destruct Htl as [-> | (state0 & parent & Hst & ->)]; [destruct Hin |].
  exists state0, parent. split; [exact Hst |].
  pose proof (bundleLoop_headers (bundleContext ctx args)
                (Coinbase (bundleHeader args parent))
                (bundleSigner args parent) txs 0
                (bundleStart args state0 parent)) as Hall.
  rewrite List.Forall_forall in Hall. specialize (Hall ev Hin h Hh).
  cbn [bundleStart header] in Hall.
  apply setGasUsed_fields in Hall as (Hp & Hn & Ht & Hc & Hg & Hb).
  destruct (bundleHeader_synthesized args parent)
    as (Hp' & Hn' & Ht' & Hc' & Hg' & Hb').
  split.
  - unfold HeaderSynthesized. repeat split; congruence.
  - intros Hnone Hrange. rewrite Ht, Ht', Hnone.
    unfold MaxUint64 in Hrange. rewrite wrap64_small by lia. lia.
Qed.

Lemma execution_header_witness :
  exists state0 parent,
    StateAndHeaderByNumberOrHash (Externals := Toy.world)
      (bundleContext (CallerCtx 0) (Toy.request [[x01]] 101 None None))
      (BlockNumberOrHashWithNumber 100) = (Some state0, Some parent, None) /\
    HeaderSynthesized (X := Toy.world) (Toy.request [[x01]] 101 None None)
      parent
      (bundleHeader (X := Toy.world) (Toy.request [[x01]] 101 None None)
         (Toy.parentAt 100)) /\
    (arg_Timestamp (Toy.request [[x01]] 101 None None) = None ->
     0 <= Time parent < MaxUint64 ->
     Time parent
     < Time (bundleHeader (X := Toy.world)
               (Toy.request [[x01]] 101 None None) (Toy.parentAt 100))).
Proof.
  apply (execution_header (X := Toy.world) (CallerCtx 0)
           (Toy.request [[x01]] 101 None None)
           (EvGetEVM (Toy.txHash [x01])
              (bundleHeader (X := Toy.world)
                 (Toy.request [[x01]] 101 None None) (Toy.parentAt 100)))).
  - vm_compute. do 4 right. left. reflexivity.
  - reflexivity.
Defined.

(** C5, as stated, fails: with the timestamp override 5 the engine is
    called with a header of timestamp 5, earlier than the timestamp
    1700000000000000000 of its parent. *)
Lemma execution_header_earlier_than_parent :
  StateAndHeaderByNumberOrHash (Externals := Toy.world)
    (bundleContext (CallerCtx 0) (Toy.request [[x01]] 101 None (Some 5)))
    (BlockNumberOrHashWithNumber 100)
  = (Some 1000000, Some (Toy.parentAt 100), None) /\
  In (EvApply (Toy.txHash [x01]) MaxUint64
        (bundleHeader (X := Toy.world)
           (Toy.request [[x01]] 101 None (Some 5)) (Toy.parentAt 100)))
    (trace (CallBundle (X := Toy.world) (CallerCtx 0)
              (Toy.request [[x01]] 101 None (Some 5)))) /\
  Time (bundleHeader (X := Toy.world)
          (Toy.request [[x01]] 101 None (Some 5)) (Toy.parentAt 100))
  < Time (Toy.parentAt 100).
Proof.
  split; [reflexivity |]. split.
  - vm_compute. do 5 right. left. reflexivity.
  - vm_compute. reflexivity.
Qed.

(** ** Decoding comes first *)

(** C10.  For a request that passes validation: if an encoding fails to
    decode, the call returns the error of the first such encoding, and its
    only calls are the decoding calls up to and including that one (no
    state is acquired, nothing is executed); if all encodings decode, all
    the decoding calls come first, in order, then the state acquisition,
    then only calls of the loop. *)
Theorem decoding_upfront `{X : Externals} (ctx : Context)
    (args : CallBundleArgs) :
  arg_Txs args <> [] ->
  arg_BlockNumber args <> 0 ->
  (forall pre bad post txs e,
     arg_Txs args = pre ++ bad :: post ->
     Forall2 decodes pre txs ->
     UnmarshalBinary bad = inl e ->
     CallBundle ctx args = (map EvUnmarshalBinary (pre ++ [bad]), Err e)) /\
  (forall txs,
     Forall2 decodes (arg_Txs args) txs ->
     exists tl,
       trace (CallBundle ctx args)
       = map EvUnmarshalBinary (arg_Txs args)
         ++ EvStateAndHeader (bundleContext ctx args)
              (arg_StateBlockNumberOrHash args) :: tl /\
       Forall (fun ev => isLoopEvent ev = true) tl).
Proof.
  intros Hne Hbn. split.
  - intros pre bad post txs e Hsplit Hdec Hbad. unfold CallBundle.
    destruct (arg_Txs args) as [| enc0 encs0] eqn:Htxs; [contradiction |].
    cbn [length Nat.eqb].
    destruct (Z.eqb_spec (arg_BlockNumber args) 0); [contradiction |].
    rewrite Hsplit.
    rewrite (decodeTxs_first_failure pre bad post [] txs e Hdec Hbad).
    reflexivity.
  - intros txs Hdec.
    destruct (CallBundle_trace_decoded ctx args txs Hne Hbn Hdec)
      as (tl & Htrace & Htl).
    exists tl. split; [exact Htrace |].
    destruct Htl as [-> | (state0 & parent & _ & ->)]; [constructor |].
    apply bundleLoop_trace_kind.
Qed.

Lemma decoding_upfront_witness :
  (forall pre bad post txs e,
     arg_Txs (Toy.request [[x01]; []; [x02]] 101 None None)
     = pre ++ bad :: post ->
     Forall2 (decodes (X := Toy.world)) pre txs ->
     UnmarshalBinary (Externals := Toy.world) bad = inl e ->
     CallBundle (X := Toy.world) (CallerCtx 0)
       (Toy.request [[x01]; []; [x02]] 101 None None)
     = (map EvUnmarshalBinary (pre ++ [bad]), Err e)) /\
  (forall txs,
     Forall2 (decodes (X := Toy.world))
       (arg_Txs (Toy.request [[x01]; []; [x02]] 101 None None)) txs ->
     exists tl,
       trace (CallBundle (X := Toy.world) (CallerCtx 0)
                (Toy.request [[x01]; []; [x02]] 101 None None))
       = map EvUnmarshalBinary
           (arg_Txs (Toy.request [[x01]; []; [x02]] 101 None None))
         ++ EvStateAndHeader
              (bundleContext (CallerCtx 0)
                 (Toy.request [[x01]; []; [x02]] 101 None None))
              (arg_StateBlockNumberOrHash
                 (Toy.request [[x01]; []; [x02]] 101 None None)) :: tl /\
       Forall (fun ev => isLoopEvent ev = true) tl).
Proof.
  apply (decoding_upfront (X := Toy.world) (CallerCtx 0)
           (Toy.request [[x01]; []; [x02]] 101 None None)).
  - discriminate.
  - discriminate.
Defined.

(** The run behind the witness: the second encoding does not decode, the
    third is never looked at, and nothing else is called. *)
Example CallBundle_decode_failure_run :
  CallBundle (X := Toy.world) (CallerCtx 0)
    (Toy.request [[x01]; []; [x02]] 101 None None)
  = ([EvUnmarshalBinary [x01]; EvUnmarshalBinary []],
     Err "typed transaction too short").
Proof. vm_compute. reflexivity. Qed.

(** ** The result list and the gas total *)

Lemma wrap64_idem (z : Z) : wrap64 (wrap64 z) = wrap64 z.
Proof. unfold wrap64. apply Z.mod_mod. lia. Qed.

(** The gas total of the loop stays a 64-bit number. *)
Lemma bundleLoop_total_wrapped `{X : Externals} ctx coinbase signer txs i ls
    t ls' :
  bundleLoop ctx coinbase signer i txs ls = (t, Ok ls') ->
  wrap64 (totalGasUsed ls) = totalGasUsed ls ->
  wrap64 (totalGasUsed ls') = totalGasUsed ls'.
Proof.
  revert txs i ls t ls'.
  apply (bundleLoop_Ok_ind ctx coinbase signer
           (fun _ _ ls ls' _ =>
              wrap64 (totalGasUsed ls) = totalGasUsed ls ->
              wrap64 (totalGasUsed ls') = totalGasUsed ls')).
  - auto.
  - intros i tx rest ls ls1 ls2 t1 t2 Hiter _ IH _. apply IH.
    apply bundleIter_Ok_inv in Hiter
      as (? & ? & ? & ? & ? & ? & ? & ? & ? & _ & _ & _ & _ & _ & -> & _).
    cbn [totalGasUsed]. apply wrap64_idem.
Qed.

(** C6.  A bundle call that returns a result returns one entry per
    transaction of the request, in the order of the request (the i-th entry
    carries the hash of the i-th transaction), and a ["totalGasUsed"] that is
    the sum, in 64-bit arithmetic, of the ["gasUsed"] of the entries, each of
    which is the gas used of the receipt. *)
Theorem results_in_order_and_total `{X : Externals} ctx args t ret_ :
  CallBundle ctx args = (t, Ok ret_) -> ResultsInOrder args ret_.
Proof.
  intros Hcall. unfold ResultsInOrder.
  apply CallBundle_Ok_inv in Hcall
    as (txs & state0 & parent & tl & ls & _ & _ & Hdec & _ & Hloop & Hfin & _).
  pose proof (bundleLoop_accumulates _ _ _ _ _ _ _ _ Hloop)
    as (entries & gs & Hres & Hhash & Hgas & Htot & _ & _).
  pose proof (bundleLoop_total_wrapped _ _ _ _ _ _ _ _ Hloop eq_refl) as Hw.
  pose proof (bundleLoop_results_length _ _ _ _ _ _ _ _ Hloop) as Hlen.
  cbn [bundleStart results totalGasUsed] in Hres, Htot, Hlen.
  rewrite Hw, Z.add_0_l in Htot.
  apply final_fields in Hfin as (Hr & _ & Ht & _).
  exists txs, entries, gs. rewrite Hres in Hr, Hlen. cbn [app] in Hr, Hlen.
  repeat split; auto.
  - rewrite Hlen. cbn [length]. symmetry. eapply Forall2_length. exact Hdec.
  - rewrite Ht, Htot. reflexivity.
  - intros Hrange. rewrite Ht, Htot, wrap64_small by exact Hrange.
    reflexivity.
Qed.

Lemma results_in_order_and_total_witness :
  ResultsInOrder (X := Toy.world) (Toy.request [[x01]; [x02]] 101 None None)
    (resultOf (CallBundle (X := Toy.world) (CallerCtx 0)
                 (Toy.request [[x01]; [x02]] 101 None None))).
Proof.
  apply (results_in_order_and_total (X := Toy.world) (CallerCtx 0)
           (Toy.request [[x01]; [x02]] 101 None None)
           (trace (CallBundle (X := Toy.world) (CallerCtx 0)
                     (Toy.request [[x01]; [x02]] 101 None None)))).
  vm_compute. reflexivity.
Defined.

(** The figures of that run: two entries, 21000 and 30000 gas, 51000 in
    total. *)
Example CallBundle_two_transactions_run :
  exists e1 e2,
    resultOf (CallBundle (X := Toy.world) (CallerCtx 0)
                (Toy.request [[x01]; [x02]] 101 None None)) !! "results"
    = Some (RResults [e1; e2]) /\
    e1 !! "gasUsed" = Some (VU64 21000) /\
    e2 !! "gasUsed" = Some (VU64 30000) /\
    resultOf (CallBundle (X := Toy.world) (CallerCtx 0)
                (Toy.request [[x01]; [x02]] 101 None None)) !! "totalGasUsed"
    = Some (RU64 51000).
Proof.
  eexists _, _. split; [vm_compute; reflexivity |].
  repeat split; vm_compute; reflexivity.
Qed.

(** ** The bundle identifier *)

Lemma decodes_functional `{X : Externals} (encoded : list (list byte)) :
  forall txs1 txs2,
    Forall2 decodes encoded txs1 -> Forall2 decodes encoded txs2 ->
    txs1 = txs2.
Proof.
  induction encoded as [| enc rest IH]; intros txs1 txs2 H1 H2.
  - inversion H1; inversion H2; reflexivity.
  - inversion H1 as [| ? tx1 ? r1 Hd1 Hr1]; subst.
    inversion H2 as [| ? tx2 ? r2 Hd2 Hr2]; subst.
    unfold decodes in Hd1, Hd2. rewrite Hd1 in Hd2. injection Hd2 as <-.
    f_equal. now apply IH.
Qed.

(** The identifier of a call that returned. *)
Lemma bundleHash_of_call `{X : Externals} ctx args t ret_ txs :
  CallBundle ctx args = (t, Ok ret_) ->
  Forall2 decodes (arg_Txs args) txs ->
  ret_ !! "bundleHash" = Some (RStr (bundleDigest (map TxHash txs))).
Proof.
  intros Hcall Hdec.
  apply CallBundle_Ok_inv in Hcall
    as (txs' & state0 & parent & tl & ls & _ & _ & Hdec' & _ & Hloop & Hfin & _).
  rewrite (decodes_functional _ _ _ Hdec Hdec').
  pose proof (bundleLoop_accumulates _ _ _ _ _ _ _ _ Hloop)
    as (_ & _ & _ & _ & _ & _ & Hbh & _).
  cbn [bundleStart bundleHash app] in Hbh.
  apply final_fields in Hfin as (_ & _ & _ & _ & _ & _ & _ & Hh).
  rewrite Hh, Hbh. reflexivity.
Qed.

(** Different sequences of hashes give different identifiers, short of a
    Keccak-256 collision between the two streams. *)
Lemma bundleDigest_order_sensitive `{X : Externals} (hs1 hs2 : list Hash) :
  Forall (fun h => length h = 32%nat) hs1 ->
  Forall (fun h => length h = 32%nat) hs2 ->
  hs1 <> hs2 ->
  NoCollision (concat hs1) (concat hs2) ->
  bundleDigest hs1 <> bundleDigest hs2.
Proof.
  intros H1 H2 Hne Hnc Heq. apply Hne.
  unfold bundleDigest in Heq. cbn in Heq. injection Heq as Heq.
  apply Bytes2Hex_inj in Heq. apply Hnc in Heq.
  apply (concat_blocks_inj 32 hs1 hs2); auto. lia.
Qed.

(** C7.  The ["bundleHash"] of a call that returns is the 0x-prefixed
    hexadecimal Keccak-256 digest of the bytes of the transaction hashes,
    written in execution order and finalised once.  Hence two calls over
    the same sequence of hashes return the same identifier, and two calls
    over different sequences (a reordering that changes the sequence)
    return different identifiers, unless the two byte streams collide under
    Keccak-256. *)
Theorem bundleHash_digest `{X : Externals} `{!ExternalsOK X}
    ctx1 args1 t1 ret1 txs1 ctx2 args2 t2 ret2 txs2 :
  CallBundle ctx1 args1 = (t1, Ok ret1) ->
  Forall2 decodes (arg_Txs args1) txs1 ->
  CallBundle ctx2 args2 = (t2, Ok ret2) ->
  Forall2 decodes (arg_Txs args2) txs2 ->
  ret1 !! "bundleHash" = Some (RStr (bundleDigest (map TxHash txs1))) /\
  ret2 !! "bundleHash" = Some (RStr (bundleDigest (map TxHash txs2))) /\
  (map TxHash txs1 = map TxHash txs2 ->
   ret1 !! "bundleHash" = ret2 !! "bundleHash") /\
  (map TxHash txs1 <> map TxHash txs2 ->
   NoCollision (concat (map TxHash txs1)) (concat (map TxHash txs2)) ->
   ret1 !! "bundleHash" <> ret2 !! "bundleHash").
Proof.
  intros Hc1 Hd1 Hc2 Hd2.
  pose proof (bundleHash_of_call _ _ _ _ _ Hc1 Hd1) as H1.
  pose proof (bundleHash_of_call _ _ _ _ _ Hc2 Hd2) as H2.
  repeat split; auto.
  - intros Heq. rewrite H1, H2, Heq. reflexivity.
  - intros Hne Hnc Heq. rewrite H1, H2 in Heq.
    assert (Hlen : forall txs : list Transaction,
               Forall (fun h => length h = 32%nat) (map TxHash txs)).
    { intros txs. apply List.Forall_forall. intros h Hin.
      apply in_map_iff in Hin as (tx & <- & _). apply TxHash_length. }
    apply (bundleDigest_order_sensitive _ _ (Hlen txs1) (Hlen txs2) Hne Hnc).
    congruence.
Qed.

Lemma bundleHash_digest_witness :
  resultOf (CallBundle (X := Toy.world) (CallerCtx 0)
              (Toy.request [[x01]; [x02]] 101 None None)) !! "bundleHash"
  = Some (RStr (bundleDigest (X := Toy.world)
                  (map Toy.txHash [[x01]; [x02]]))) /\
  resultOf (CallBundle (X := Toy.world) (CallerCtx 0)
              (Toy.request [[x02]; [x01]] 101 None None)) !! "bundleHash"
  = Some (RStr (bundleDigest (X := Toy.world)
                  (map Toy.txHash [[x02]; [x01]]))) /\
  (map Toy.txHash [[x01]; [x02]] = map Toy.txHash [[x02]; [x01]] ->
   resultOf (CallBundle (X := Toy.world) (CallerCtx 0)
               (Toy.request [[x01]; [x02]] 101 None None)) !! "bundleHash"
   = resultOf (CallBundle (X := Toy.world) (CallerCtx 0)
                 (Toy.request [[x02]; [x01]] 101 None None)) !! "bundleHash")
  /\
  (map Toy.txHash [[x01]; [x02]] <> map Toy.txHash [[x02]; [x01]] ->
   NoCollision (X := Toy.world) (concat (map Toy.txHash [[x01]; [x02]]))
     (concat (map Toy.txHash [[x02]; [x01]])) ->
   resultOf (CallBundle (X := Toy.world) (CallerCtx 0)
               (Toy.request [[x01]; [x02]] 101 None None)) !! "bundleHash"
   <> resultOf (CallBundle (X := Toy.world) (CallerCtx 0)
                  (Toy.request [[x02]; [x01]] 101 None None)) !! "bundleHash").
Proof.
  apply (bundleHash_digest (X := Toy.world) (ExternalsOK0 := Toy_ok)
           (CallerCtx 0) (Toy.request [[x01]; [x02]] 101 None None)
           (trace (CallBundle (X := Toy.world) (CallerCtx 0)
                     (Toy.request [[x01]; [x02]] 101 None None)))
           _ [[x01]; [x02]]
           (CallerCtx 0) (Toy.request [[x02]; [x01]] 101 None None)
           (trace (CallBundle (X := Toy.world) (CallerCtx 0)
                     (Toy.request [[x02]; [x01]] 101 None None)))
           _ [[x02]; [x01]]).
  - vm_compute. reflexivity.
  - repeat constructor.
  - vm_compute. reflexivity.
  - repeat constructor.
Defined.

(** ** Cancellation *)

(** C8.  Every iteration of the loop starts by reading the cancellation
    signal.  When the loop has run through the transactions [pre] and the
    signal has fired at the check before the next transaction, the call
    returns the error of the signal and no result; its last call is that
    check (the transaction and those after it are not touched).  With
    [pre] empty this is cancellation before the first transaction. *)
Theorem cancellation_aborts `{X : Externals} ctx args state0 parent
    pre tx post tpre ls e :
  arg_Txs args <> [] ->
  arg_BlockNumber args <> 0 ->
  Forall2 decodes (arg_Txs args) (pre ++ tx :: post) ->
  StateAndHeaderByNumberOrHash (bundleContext ctx args)
    (arg_StateBlockNumberOrHash args) = (Some state0, Some parent, None) ->
  bundleLoop (bundleContext ctx args) (Coinbase (bundleHeader args parent))
    (bundleSigner args parent) 0 pre (bundleStart args state0 parent)
  = (tpre, Ok ls) ->
  CtxErr (bundleContext ctx args) (Z.of_nat (length pre)) = Some e ->
  CallBundle ctx args
  = (map EvUnmarshalBinary (arg_Txs args)
       ++ EvStateAndHeader (bundleContext ctx args)
            (arg_StateBlockNumberOrHash args)
       :: tpre ++ [EvCtxErr (Z.of_nat (length pre))],
     Err e) /\
  (forall coinbase signer i tx' ls',
     exists rest,
       trace (bundleIter (bundleContext ctx args) coinbase signer i tx' ls')
       = EvCtxErr i :: rest).
Proof.
  intros Hne Hbn Hdec Hst Hpre Hctx. split.
  - rewrite (CallBundle_run ctx args _ state0 parent Hne Hbn Hdec Hst).
    rewrite (bundleLoop_prefix _ _ _ pre 0 _ tpre ls (tx :: post) Hpre).
    rewrite Z.add_0_l. cbn [bind bundleLoop].
    rewrite (bundleIter_cancelled _ _ _ _ tx ls e Hctx).
    cbn [bind]. rewrite <- app_assoc. reflexivity.
  - intros. apply bundleIter_checks_first.
Qed.

Lemma cancellation_aborts_witness :
  CallBundle (X := Toy.world) (CallerCtx 1)
    (Toy.request [[x01]; [x02]] 101 None None)
  = (map EvUnmarshalBinary
       (arg_Txs (Toy.request [[x01]; [x02]] 101 None None))
       ++ EvStateAndHeader
            (bundleContext (CallerCtx 1)
               (Toy.request [[x01]; [x02]] 101 None None))
            (arg_StateBlockNumberOrHash
               (Toy.request [[x01]; [x02]] 101 None None))
       :: [] ++ [EvCtxErr (Z.of_nat (length (@nil Toy.Tx)))],
     Err "context canceled") /\
  (forall coinbase signer i tx' ls',
     exists rest,
       trace (bundleIter (X := Toy.world)
                (bundleContext (CallerCtx 1)
                   (Toy.request [[x01]; [x02]] 101 None None))
                coinbase signer i tx' ls')
       = EvCtxErr i :: rest).
Proof.
  apply (cancellation_aborts (X := Toy.world) (CallerCtx 1)
           (Toy.request [[x01]; [x02]] 101 None None)
           1000000 (Toy.parentAt 100) [] [x01] [[x02]] []
           (bundleStart (X := Toy.world)
              (Toy.request [[x01]; [x02]] 101 None None) 1000000
              (Toy.parentAt 100))).
  - discriminate.
  - discriminate.
  - repeat constructor.
  - reflexivity.
  - reflexivity.
  - reflexivity.
Defined.

(** A deadline that passes after the first transaction: the second
    iteration stops at its check and the call returns the deadline error,
    not the entry of the first transaction. *)
Example CallBundle_deadline_run :
  outcome (CallBundle (X := Toy.world) (CallerCtx 0)
             {| arg_Txs := [[x01]; [x02]];
                arg_BlockNumber := 101;
                arg_StateBlockNumberOrHash := BlockNumberOrHashWithNumber 100;
                arg_Coinbase := None;
                arg_Timestamp := None;
                arg_Timeout := Some 1000;
                arg_GasLimit := None;
                arg_Difficulty := None;
                arg_BaseFee := None |})
  = Err "context deadline exceeded".
Proof. vm_compute. reflexivity. Qed.

(** ** The single-transaction log previewer *)

(** What holds of the previewer.  [simulateTx] fails with the backend's
    error when the backend reports one for the transaction (a miss that
    comes back without an error is the subject of
    [simulateTx_unlocated_panics] below).  When it returns, it returns the
    logs of the receipt
    of one engine invocation, made on the state of the current block, under
    a header on top of the current block, with a gas pool of exactly the
    gas limit of the transaction; whenever these steps succeed it does
    return, whatever the logs, in particular an empty list for a receipt
    without logs. *)
Theorem simulateTx_preview `{X : Externals} (ctx : Context) (txHash : Hash) :
  (forall otx e,
     GetTransaction ctx txHash = (otx, Some e) ->
     simulateTx ctx txHash = ([EvGetTransaction txHash], Err e)) /\
  (forall t logs,
     simulateTx ctx txHash = (t, Ok logs) ->
     SimulatedOnHead ctx txHash t logs) /\
  (forall tx state0 oparent evm msg receipt result gp2 state2 used2,
     GetTransaction ctx txHash = (Some tx, None) ->
     StateAndHeaderByNumberOrHash ctx
       (BlockNumberOrHashWithNumber (bigInt64 (Number CurrentBlock)))
     = (Some state0, oparent, None) ->
     GetEVM ctx (SetTxContext state0 (TxHash tx) 0)
       (simulateHeader CurrentBlock) tx = inr (evm, msg) ->
     ApplyTransactionWithResult msg (TxGas tx)
       (SetTxContext state0 (TxHash tx) 0) (simulateHeader CurrentBlock) tx 0
       evm = inr (receipt, result, gp2, state2, used2) ->
     simulateTx ctx txHash
     = (simulateTrace ctx txHash tx CurrentBlock, Ok (Receipt_Logs receipt))
     /\ (Receipt_Logs receipt = [] ->
         outcome (simulateTx ctx txHash) = Ok [])) /\
  ParentHash (simulateHeader CurrentBlock) = Hash_ CurrentBlock /\
  Number (simulateHeader CurrentBlock) = Number CurrentBlock + 1.
Proof.
  split; [| split; [| split; [| split; reflexivity]]].
  - intros otx e Hget. unfold simulateTx. rewrite Hget.
    destruct otx; reflexivity.
  - intros t logs H. unfold simulateTx in H.
    destruct (GetTransaction ctx txHash) as [[tx |] [e |]] eqn:Hget;
      try discriminate.
    cbn [bind emit] in H.
    destruct (StateAndHeaderByNumberOrHash ctx _)
      as [[[state0 |] oparent] [e |]] eqn:Hst; try discriminate.
    cbn [bind emit] in H.
    destruct (GetEVM ctx _ _ tx) as [e | [evm msg]] eqn:Hevm;
      try discriminate.
    cbn [bind emit] in H.
    destruct (ApplyTransactionWithResult msg _ _ _ _ _ evm)
      as [e | [[[[receipt result] gp2] state2] used2]] eqn:Happ;
      try discriminate.
    injection H as <- <-.
    exists tx, state0, oparent, evm, msg, receipt, result, gp2, state2, used2.
    repeat split; auto.
  - intros tx state0 oparent evm msg receipt result gp2 state2 used2
      Hget Hst Hevm Happ.
    assert (Hrun : simulateTx ctx txHash
                   = (simulateTrace ctx txHash tx CurrentBlock,
                      Ok (Receipt_Logs receipt))).
    { unfold simulateTx. rewrite Hget, Hst. cbn [bind emit].
      rewrite Hevm. cbn [bind emit]. cbn [simulateHeader GasUsed].
      cbn [simulateHeader GasUsed] in Happ. rewrite Happ. reflexivity. }
    split; [exact Hrun |].
    intros Hlogs. rewrite Hrun, Hlogs. reflexivity.
Qed.

(** A transaction that emits no events: the preview is the empty list. *)
Example simulateTx_no_events_run :
  simulateTx (X := Toy.world) (CallerCtx 0) (repeat x06 32%nat)
  = (simulateTrace (X := Toy.world) (CallerCtx 0) (repeat x06 32%nat)
       (repeat x06 32%nat) (Toy.parentAt 100),
     Ok []).
Proof. vm_compute. reflexivity. Qed.

(** A transaction the backend does not know. *)
Example simulateTx_unknown_run :
  simulateTx (X := Toy.world) (CallerCtx 0) (repeat xff 32%nat)
  = ([EvGetTransaction (repeat xff 32%nat)], Err "transaction not found").
Proof. vm_compute. reflexivity. Qed.

(** C9 (refuted on the code).  [simulateTx] checks only the error that
    [GetTransaction] returns.  When the backend cannot locate the
    transaction and says so by returning no transaction and no error, the
    nil transaction is dereferenced at [tx.Gas()]: the call panics right
    after the look-up, before any state is acquired, and does not return an
    error. *)
Theorem simulateTx_unlocated_panics `{X : Externals} (ctx : Context)
    (txHash : Hash) :
  GetTransaction ctx txHash = (None, None) ->
  simulateTx ctx txHash
  = ([EvGetTransaction txHash], Panic "nil pointer dereference") /\
  (forall e, outcome (simulateTx ctx txHash) <> Err e) /\
  (forall logs, outcome (simulateTx ctx txHash) <> Ok logs).
Proof.
  intros Hget.
  assert (Hrun : simulateTx ctx txHash
                 = ([EvGetTransaction txHash],
                    Panic "nil pointer dereference")).
  { unfold simulateTx. rewrite Hget. reflexivity. }
  split; [exact Hrun |]. rewrite Hrun. cbn [outcome snd].
  split; intros; discriminate.
Qed.

Lemma simulateTx_unlocated_panics_witness :
  simulateTx (X := silentMissWorld) (CallerCtx 0) (repeat x01 32%nat)
  = ([EvGetTransaction (repeat x01 32%nat)], Panic "nil pointer dereference")
  /\
  (forall e,
     outcome (simulateTx (X := silentMissWorld) (CallerCtx 0)
                (repeat x01 32%nat)) <> Err e) /\
  (forall logs,
     outcome (simulateTx (X := silentMissWorld) (CallerCtx 0)
                (repeat x01 32%nat)) <> Ok logs).
Proof.
  apply (simulateTx_unlocated_panics (X := silentMissWorld) (CallerCtx 0)
           (repeat x01 32%nat)).
  reflexivity.
Defined.

(** * Further properties of the two files *)

(** ** The deadline of a bundle call *)

Lemma toInt64_signed (z : Z) : - 2 ^ 63 <= z < 2 ^ 63 -> toInt64 z = z.
Proof.
  intros Hz. unfold toInt64. rewrite Z.mod_small by lia. lia.
Qed.

Lemma toInt64_high (z : Z) : 2 ^ 63 <= z < 2 ^ 64 -> toInt64 z = z - 2 ^ 64.
Proof.
  intros Hz. unfold toInt64.
  replace (z + 2 ^ 63) with ((z - 2 ^ 63) + 1 * 2 ^ 64) by lia.
  rewrite Z.mod_add by lia. rewrite Z.mod_small by lia. lia.
Qed.

Lemma toInt64_low (z : Z) : - 2 ^ 64 <= z < - 2 ^ 63 -> toInt64 z = z + 2 ^ 64.
Proof.
  intros Hz. unfold toInt64.
  replace (z + 2 ^ 63) with ((z + 2 ^ 63 + 2 ^ 64) + (-1) * 2 ^ 64) by lia.
  rewrite Z.mod_add by lia. rewrite Z.mod_small by lia. lia.
Qed.

(** X1.  The context a bundle call works under, for every timeout whose
    nanoseconds stay within one wrap of an [int64].  The timeout is the
    request's, 5000 ms when the request has none.  A timeout of 1 to
    9223372036854 ms gives a deadline of that many milliseconds (in
    nanoseconds), and a timeout of -9223372036854 to 0 ms gives a context
    without a deadline that can still be cancelled.  Beyond these the
    nanoseconds do not fit an [int64] and wrap: a timeout of 9223372036855
    to 18446744073709 ms wraps to a negative duration and gives no
    deadline, and a timeout of -18446744073709 to -9223372036855 ms wraps
    to a positive duration and gives a deadline of that timeout's
    nanoseconds plus 2^64. *)
Theorem bundleContext_deadline (ctx : Context) (args : CallBundleArgs) :
  let ms := match arg_Timeout args with
            | Some t => t
            | None => 5000
            end in
  (arg_Timeout args = None ->
   bundleContext ctx args = WithTimeout ctx 5000000000) /\
  (0 < ms <= 9223372036854 ->
   bundleContext ctx args = WithTimeout ctx (ms * 1000000)) /\
  (-9223372036854 <= ms <= 0 -> bundleContext ctx args = WithCancel ctx) /\
  (9223372036855 <= ms <= 18446744073709 ->
   bundleContext ctx args = WithCancel ctx) /\
  (-18446744073709 <= ms <= -9223372036855 ->
   bundleContext ctx args = WithTimeout ctx (ms * 1000000 + 2 ^ 64)).
Proof.
  cbn zeta. unfold bundleContext.
  set (ms := match arg_Timeout args with Some t => t | None => 5000 end).
  repeat split.
  - intros Hnone. subst ms. rewrite Hnone. reflexivity.
  - intros Hms. rewrite toInt64_signed by lia.
    destruct (Z.ltb_spec 0 (1000000 * ms)); [f_equal; lia | lia].
  - intros Hms. rewrite toInt64_signed by lia.
    destruct (Z.ltb_spec 0 (1000000 * ms)); [lia | reflexivity].
  - intros Hms. rewrite toInt64_high by lia.
    destruct (Z.ltb_spec 0 (1000000 * ms - 2 ^ 64)); [lia | reflexivity].
  - intros Hms. rewrite toInt64_low by lia.
    destruct (Z.ltb_spec 0 (1000000 * ms + 2 ^ 64)); [f_equal; lia | lia].
Qed.

(** ** Failures that end a bundle call *)

Section Aborts.
Context `{X : Externals}.

(** The call, once the loop has run through the transactions [pre] and
    the iteration of the next transaction ends with an error. *)
Lemma CallBundle_iter_Err ctx args state0 parent pre tx post tpre ls t e :
  arg_Txs args <> [] ->
  arg_BlockNumber args <> 0 ->
  Forall2 decodes (arg_Txs args) (pre ++ tx :: post) ->
  StateAndHeaderByNumberOrHash (bundleContext ctx args)
    (arg_StateBlockNumberOrHash args) = (Some state0, Some parent, None) ->
  bundleLoop (bundleContext ctx args) (Coinbase (bundleHeader args parent))
    (bundleSigner args parent) 0 pre (bundleStart args state0 parent)
  = (tpre, Ok ls) ->
  bundleIter (bundleContext ctx args) (Coinbase (bundleHeader args parent))
    (bundleSigner args parent) (Z.of_nat (length pre)) tx ls = (t, Err e) ->
  CallBundle ctx args
  = (map EvUnmarshalBinary (arg_Txs args)
       ++ EvStateAndHeader (bundleContext ctx args)
            (arg_StateBlockNumberOrHash args) :: tpre ++ t,
     Err e).
Proof.
  intros Hne Hbn Hdec Hst Hpre Hiter.
  rewrite (CallBundle_run ctx args _ state0 parent Hne Hbn Hdec Hst).
  rewrite (bundleLoop_prefix _ _ _ pre 0 _ tpre ls (tx :: post) Hpre).
  rewrite Z.add_0_l. cbn [bind bundleLoop]. rewrite Hiter.
  cbn [bind]. rewrite <- app_assoc. reflexivity.
Qed.

End Aborts.

(** X2.  When the engine refuses a transaction (an error from
    [ApplyTransactionWithResult], not a failure inside the VM), the bundle
    call ends there: it returns the engine's error wrapped as
    "err: <error>; txhash <hash>" and no result, the entries of the
    transactions before it are dropped, and the transactions after it are
    not touched (the engine call is the last call). *)
Theorem engine_refusal_aborts_bundle `{X : Externals} ctx args state0 parent
    pre tx post tpre ls evm msg err :
  arg_Txs args <> [] ->
  arg_BlockNumber args <> 0 ->
  Forall2 decodes (arg_Txs args) (pre ++ tx :: post) ->
  StateAndHeaderByNumberOrHash (bundleContext ctx args)
    (arg_StateBlockNumberOrHash args) = (Some state0, Some parent, None) ->
  bundleLoop (bundleContext ctx args) (Coinbase (bundleHeader args parent))
    (bundleSigner args parent) 0 pre (bundleStart args state0 parent)
  = (tpre, Ok ls) ->
  CtxErr (bundleContext ctx args) (Z.of_nat (length pre)) = None ->
  GetEVM (bundleContext ctx args)
    (SetTxContext (state ls) (TxHash tx) (Z.of_nat (length pre)))
    (header ls) tx = inr (evm, msg) ->
  ApplyTransactionWithResult msg (gp ls)
    (SetTxContext (state ls) (TxHash tx) (Z.of_nat (length pre)))
    (header ls) tx (GasUsed (header ls)) evm = inl err ->
  CallBundle ctx args
  = (map EvUnmarshalBinary (arg_Txs args)
       ++ EvStateAndHeader (bundleContext ctx args)
            (arg_StateBlockNumberOrHash args)
       :: tpre ++ iterTrace (Z.of_nat (length pre)) tx ls,
     Err ("err: " +:+ err +:+ "; txhash " +:+ HashString (TxHash tx))).
Proof.
  intros Hne Hbn Hdec Hst Hpre Hctx Hevm Happ.
  apply (CallBundle_iter_Err ctx args state0 parent pre tx post tpre ls);
    auto.
  unfold bundleIter. rewrite Hctx, Hevm, Happ. reflexivity.
Qed.

Lemma engine_refusal_aborts_bundle_witness :
  CallBundle (X := Toy.world) (CallerCtx 0)
    (Toy.request [[x03]; [x01]] 101 None None)
  = (map EvUnmarshalBinary
       (arg_Txs (Toy.request [[x03]; [x01]] 101 None None))
       ++ EvStateAndHeader
            (bundleContext (CallerCtx 0)
               (Toy.request [[x03]; [x01]] 101 None None))
            (arg_StateBlockNumberOrHash
               (Toy.request [[x03]; [x01]] 101 None None))
       :: [] ++ iterTrace (X := Toy.world)
                  (Z.of_nat (length (@nil Toy.Tx))) [x03]
                  (bundleStart (X := Toy.world)
                     (Toy.request [[x03]; [x01]] 101 None None) 1000000
                     (Toy.parentAt 100)),
     Err ("err: " +:+ "nonce too low" +:+ "; txhash "
          +:+ HashString (Toy.txHash [x03]))).
Proof.
  apply (engine_refusal_aborts_bundle (X := Toy.world) (CallerCtx 0)
           (Toy.request [[x03]; [x01]] 101 None None)
           1000000 (Toy.parentAt 100) [] [x03] [[x01]] []
           (bundleStart (X := Toy.world)
              (Toy.request [[x03]; [x01]] 101 None None) 1000000
              (Toy.parentAt 100)) tt [x03] "nonce too low").
  - discriminate.
  - discriminate.
  - repeat constructor.
  - reflexivity.
  - reflexivity.
  - reflexivity.
  - reflexivity.
  - reflexivity.
Defined.

(** X3.  [CallBundle] asks for the effective gas tip a second time, after
    the entry of the transaction is built, and this time checks the error:
    when [EffectiveGasTip] fails for a transaction that the engine applied
    (with non-zero gas used), the call returns that error wrapped with the
    transaction hash and no result, although the engine has run. *)
Theorem tip_failure_aborts_bundle `{X : Externals} ctx args state0 parent
    pre tx post tpre ls evm msg receipt result gp2 state2 used2 tipv err :
  arg_Txs args <> [] ->
  arg_BlockNumber args <> 0 ->
  Forall2 decodes (arg_Txs args) (pre ++ tx :: post) ->
  StateAndHeaderByNumberOrHash (bundleContext ctx args)
    (arg_StateBlockNumberOrHash args) = (Some state0, Some parent, None) ->
  bundleLoop (bundleContext ctx args) (Coinbase (bundleHeader args parent))
    (bundleSigner args parent) 0 pre (bundleStart args state0 parent)
  = (tpre, Ok ls) ->
  CtxErr (bundleContext ctx args) (Z.of_nat (length pre)) = None ->
  GetEVM (bundleContext ctx args)
    (SetTxContext (state ls) (TxHash tx) (Z.of_nat (length pre)))
    (header ls) tx = inr (evm, msg) ->
  ApplyTransactionWithResult msg (gp ls)
    (SetTxContext (state ls) (TxHash tx) (Z.of_nat (length pre)))
    (header ls) tx (GasUsed (header ls)) evm
  = inr (receipt, result, gp2, state2, used2) ->
  Receipt_GasUsed receipt mod 2 ^ 64 <> 0 ->
  EffectiveGasTip tx (BaseFee (header ls)) = (tipv, Some err) ->
  CallBundle ctx args
  = (map EvUnmarshalBinary (arg_Txs args)
       ++ EvStateAndHeader (bundleContext ctx args)
            (arg_StateBlockNumberOrHash args)
       :: tpre ++ iterTrace (Z.of_nat (length pre)) tx ls,
     Err ("err: " +:+ err +:+ "; txhash " +:+ HashString (TxHash tx))).
Proof.
  intros Hne Hbn Hdec Hst Hpre Hctx Hevm Happ Hgas Htip.
  apply (CallBundle_iter_Err ctx args state0 parent pre tx post tpre ls);
    auto.
  assert (Hnz : toInt64 (Receipt_GasUsed receipt) <> 0).
  { unfold toInt64. intros Hz. apply Hgas.
    assert (Hm : (Receipt_GasUsed receipt + 2 ^ 63) mod 2 ^ 64 = 2 ^ 63) by lia.
    rewrite <- (Z.mod_small (2 ^ 63) (2 ^ 64)) in Hm at 2 by lia.
    replace (Receipt_GasUsed receipt)
      with ((Receipt_GasUsed receipt + 2 ^ 63) - 2 ^ 63) by lia.
    rewrite Zminus_mod, Hm, Zminus_mod_idemp_l, Z.sub_diag. reflexivity. }
  destruct (processTransactionResult_outcome tx receipt result
              (bundleSigner args parent)
              (EthHeader (setGasUsed (header ls) used2))
              (GetBalance (state ls) (Coinbase (bundleHeader args parent)))
              state2) as [_ Hok].
  destruct (Hok Hnz) as [entry Hentry].
  unfold bundleIter. rewrite Hctx, Hevm, Happ, Hentry.
  cbn [lift bind emit setGasUsed BaseFee]. rewrite Htip. reflexivity.
Qed.

Lemma tip_failure_aborts_bundle_witness :
  CallBundle (X := Toy.world) (CallerCtx 0)
    (Toy.request [[x05]] 101 None None)
  = (map EvUnmarshalBinary (arg_Txs (Toy.request [[x05]] 101 None None))
       ++ EvStateAndHeader
            (bundleContext (CallerCtx 0) (Toy.request [[x05]] 101 None None))
            (arg_StateBlockNumberOrHash (Toy.request [[x05]] 101 None None))
       :: [] ++ iterTrace (X := Toy.world)
                  (Z.of_nat (length (@nil Toy.Tx))) [x05]
                  (bundleStart (X := Toy.world)
                     (Toy.request [[x05]] 101 None None) 1000000
                     (Toy.parentAt 100)),
     Err ("err: " +:+ "max fee per gas less than block base fee"
          +:+ "; txhash " +:+ HashString (Toy.txHash [x05]))).
Proof.
  apply (tip_failure_aborts_bundle (X := Toy.world) (CallerCtx 0)
           (Toy.request [[x05]] 101 None None)
           1000000 (Toy.parentAt 100) [] [x05] [] []
           (bundleStart (X := Toy.world)
              (Toy.request [[x05]] 101 None None) 1000000
              (Toy.parentAt 100))
           tt [x05] (21000, [7]) (None, [x2a])
           (MaxUint64 - 21000) 1043000 21000 (-1)
           "max fee per gas less than block base fee").
  - discriminate.
  - discriminate.
  - repeat constructor.
  - reflexivity.
  - reflexivity.
  - reflexivity.
  - reflexivity.
  - reflexivity.
  - vm_compute. discriminate.
  - reflexivity.
Defined.

(** X4.  When the state cannot be acquired, a bundle call whose request
    is accepted and decodes returns right after the acquisition, with no
    call to the engine: the backend's error when there is one, and
    [(nil, nil)] (no result and no error) when the backend returns no
    state and no error. *)
Theorem state_acquisition_failure `{X : Externals} ctx args txs
    ostate oparent :
  arg_Txs args <> [] ->
  arg_BlockNumber args <> 0 ->
  Forall2 decodes (arg_Txs args) txs ->
  (forall e,
     StateAndHeaderByNumberOrHash (bundleContext ctx args)
       (arg_StateBlockNumberOrHash args) = (ostate, oparent, Some e) ->
     CallBundle ctx args
     = (map EvUnmarshalBinary (arg_Txs args)
          ++ [EvStateAndHeader (bundleContext ctx args)
                (arg_StateBlockNumberOrHash args)],
        Err e)) /\
  (StateAndHeaderByNumberOrHash (bundleContext ctx args)
     (arg_StateBlockNumberOrHash args) = (None, oparent, None) ->
   CallBundle ctx args
   = (map EvUnmarshalBinary (arg_Txs args)
        ++ [EvStateAndHeader (bundleContext ctx args)
              (arg_StateBlockNumberOrHash args)],
      NilNil)).
Proof.
  intros Hne Hbn Hdec. split.
  - intros e Hst. unfold CallBundle.
    destruct (arg_Txs args) as [| enc0 encs0] eqn:Htxs; [contradiction |].
    cbn [length Nat.eqb].
    destruct (Z.eqb_spec (arg_BlockNumber args) 0); [contradiction |].
    rewrite (decodeTxs_all _ [] txs Hdec). cbn [app bind emit].
    rewrite Hst. destruct ostate, oparent; reflexivity.
  - intros Hst. unfold CallBundle.
    destruct (arg_Txs args) as [| enc0 encs0] eqn:Htxs; [contradiction |].
    cbn [length Nat.eqb].
    destruct (Z.eqb_spec (arg_BlockNumber args) 0); [contradiction |].
    rewrite (decodeTxs_all _ [] txs Hdec). cbn [app bind emit].
    rewrite Hst. destruct oparent; reflexivity.
Qed.

Lemma state_acquisition_failure_witness :
  (forall e,
     StateAndHeaderByNumberOrHash (Externals := Toy.world)
       (bundleContext (CallerCtx 0)
          (withStateRef (Toy.request [[x01]] 101 None None)
             (BlockNumberOrHashWithNumber (-7))))
       (arg_StateBlockNumberOrHash
          (withStateRef (Toy.request [[x01]] 101 None None)
             (BlockNumberOrHashWithNumber (-7))))
     = (None, None, Some e) ->
     CallBundle (X := Toy.world) (CallerCtx 0)
       (withStateRef (Toy.request [[x01]] 101 None None)
          (BlockNumberOrHashWithNumber (-7)))
     = (map EvUnmarshalBinary
          (arg_Txs (withStateRef (Toy.request [[x01]] 101 None None)
                      (BlockNumberOrHashWithNumber (-7))))
          ++ [EvStateAndHeader
                (bundleContext (CallerCtx 0)
                   (withStateRef (Toy.request [[x01]] 101 None None)
                      (BlockNumberOrHashWithNumber (-7))))
                (arg_StateBlockNumberOrHash
                   (withStateRef (Toy.request [[x01]] 101 None None)
                      (BlockNumberOrHashWithNumber (-7))))],
        Err e)) /\
  (StateAndHeaderByNumberOrHash (Externals := Toy.world)
     (bundleContext (CallerCtx 0)
        (withStateRef (Toy.request [[x01]] 101 None None)
           (BlockNumberOrHashWithNumber (-7))))
     (arg_StateBlockNumberOrHash
        (withStateRef (Toy.request [[x01]] 101 None None)
           (BlockNumberOrHashWithNumber (-7))))
   = (None, None, None) ->
   CallBundle (X := Toy.world) (CallerCtx 0)
     (withStateRef (Toy.request [[x01]] 101 None None)
        (BlockNumberOrHashWithNumber (-7)))
   = (map EvUnmarshalBinary
        (arg_Txs (withStateRef (Toy.request [[x01]] 101 None None)
                    (BlockNumberOrHashWithNumber (-7))))
        ++ [EvStateAndHeader
              (bundleContext (CallerCtx 0)
                 (withStateRef (Toy.request [[x01]] 101 None None)
                    (BlockNumberOrHashWithNumber (-7))))
              (arg_StateBlockNumberOrHash
                 (withStateRef (Toy.request [[x01]] 101 None None)
                    (BlockNumberOrHashWithNumber (-7))))],
      NilNil)).
Proof.
  apply (state_acquisition_failure (X := Toy.world) (CallerCtx 0)
           (withStateRef (Toy.request [[x01]] 101 None None)
              (BlockNumberOrHashWithNumber (-7)))
           [[x01]] None None).
  - discriminate.
  - discriminate.
  - repeat constructor.
Defined.

(** The run behind the witness: the state of block -7 is not found. *)
Example CallBundle_unknown_state_run :
  CallBundle (X := Toy.world) (CallerCtx 0)
    (withStateRef (Toy.request [[x01]] 101 None None)
       (BlockNumberOrHashWithNumber (-7)))
  = ([EvUnmarshalBinary [x01];
      EvStateAndHeader (WithTimeout (CallerCtx 0) 5000000000)
        (BlockNumberOrHashWithNumber (-7))],
     Err "header not found").
Proof. vm_compute. reflexivity. Qed.

(** ** The shape of an entry and of a result *)

(** X5.  An entry reports the execution either as ["value"] (the
    0x-prefixed hexadecimal return data) or as ["error"], never both:
    ["value"] is present exactly when the execution had no error, ["error"]
    exactly when it had one, and ["revert"] (the revert data as a string)
    exactly when it had an error and the revert data is not empty. *)
Theorem entry_value_or_error `{X : Externals} tx receipt result signer hdr
    bal st entry :
  processTransactionResult tx receipt result signer hdr bal st = Ok entry ->
  (Result_Err result = None ->
   entry !! "value"
   = Some (VStr ("0x" +:+ Bytes2Hex (Result_Return result))) /\
   entry !! "error" = None /\ entry !! "revert" = None) /\
  (forall e,
     Result_Err result = Some e ->
     entry !! "error" = Some (VStr e) /\ entry !! "value" = None /\
     (Result_Revert result = [] -> entry !! "revert" = None) /\
     (Result_Revert result <> [] ->
      entry !! "revert"
      = Some (VStr (string_of_list_byte (Result_Revert result))))).
Proof.
  intros Hentry. pose proof (entry_execution _ _ _ _ _ _ _ _ Hentry) as H.
  split.
  - intros Hnone. rewrite Hnone in H. exact H.
  - intros e Hsome. rewrite Hsome in H. destruct H as (He & Hv & Hr).
    repeat split; auto.
    + intros Hnil. rewrite Hnil in Hr. exact Hr.
    + intros Hne. destruct (Result_Revert result); [contradiction | exact Hr].
Qed.

Lemma entry_value_or_error_witness :
  (Result_Err (Externals := Toy.world) (Some "execution reverted", [x6e; x6f])
   = None ->
   resultOf (lift (processTransactionResult (X := Toy.world) [x02]
                     (30000, []) (Some "execution reverted", [x6e; x6f]) tt
                     (EthHeader (Externals := Toy.world) (Toy.parentAt 100))
                     1000000 1060000)) !! "value"
   = Some (VStr ("0x" +:+ Bytes2Hex
                   (Result_Return (Externals := Toy.world)
                      (Some "execution reverted", [x6e; x6f])))) /\
   resultOf (lift (processTransactionResult (X := Toy.world) [x02]
                     (30000, []) (Some "execution reverted", [x6e; x6f]) tt
                     (EthHeader (Externals := Toy.world) (Toy.parentAt 100))
                     1000000 1060000)) !! "error" = None /\
   resultOf (lift (processTransactionResult (X := Toy.world) [x02]
                     (30000, []) (Some "execution reverted", [x6e; x6f]) tt
                     (EthHeader (Externals := Toy.world) (Toy.parentAt 100))
                     1000000 1060000)) !! "revert" = None) /\
  (forall e,
     Result_Err (Externals := Toy.world)
       (Some "execution reverted", [x6e; x6f]) = Some e ->
     resultOf (lift (processTransactionResult (X := Toy.world) [x02]
                       (30000, []) (Some "execution reverted", [x6e; x6f]) tt
                       (EthHeader (Externals := Toy.world) (Toy.parentAt 100))
                       1000000 1060000)) !! "error" = Some (VStr e) /\
     resultOf (lift (processTransactionResult (X := Toy.world) [x02]
                       (30000, []) (Some "execution reverted", [x6e; x6f]) tt
                       (EthHeader (Externals := Toy.world) (Toy.parentAt 100))
                       1000000 1060000)) !! "value" = None /\
     (Result_Revert (Externals := Toy.world)
        (Some "execution reverted", [x6e; x6f]) = [] ->
      resultOf (lift (processTransactionResult (X := Toy.world) [x02]
                        (30000, []) (Some "execution reverted", [x6e; x6f]) tt
                        (EthHeader (Externals := Toy.world)
                           (Toy.parentAt 100))
                        1000000 1060000)) !! "revert" = None) /\
     (Result_Revert (Externals := Toy.world)
        (Some "execution reverted", [x6e; x6f]) <> [] ->
      resultOf (lift (processTransactionResult (X := Toy.world) [x02]
                        (30000, []) (Some "execution reverted", [x6e; x6f]) tt
                        (EthHeader (Externals := Toy.world)
                           (Toy.parentAt 100))
                        1000000 1060000)) !! "revert"
      = Some (VStr (string_of_list_byte
                      (Result_Revert (Externals := Toy.world)
                         (Some "execution reverted", [x6e; x6f])))))).
Proof.
  apply (entry_value_or_error (X := Toy.world) [x02] (30000, [])
           (Some "execution reverted", [x6e; x6f]) tt
           (EthHeader (Externals := Toy.world) (Toy.parentAt 100))
           1000000 1060000).
  vm_compute. reflexivity.
Defined.

Lemma bigDiv_pos (x y : Z) : 0 < y -> bigDiv x y = Some (x / y).
Proof.
  intros Hy. unfold bigDiv.
  destruct (Z.eqb_spec y 0); [lia |].
  destruct (Z.ltb_spec 0 y); [reflexivity | lia].
Qed.

Lemma bigDiv_neg (x y : Z) : y < 0 -> bigDiv x y = Some (- (x / (- y))).
Proof.
  intros Hy. unfold bigDiv.
  destruct (Z.eqb_spec y 0); [lia |].
  destruct (Z.ltb_spec 0 y); [lia | reflexivity].
Qed.

(** X6.  The two prices are integer quotients that round down.  For a
    receipt with gas used between 1 and 2^63 - 1 the entry's ["gasPrice"] is
    the coinbase difference divided by the gas used, rounded towards minus
    infinity (so a negative difference gives a price rounded away from
    zero); the same holds for ["bundleGasPrice"] and the cumulative gas
    used.  A gas used of 2^63 or more is read as the negative [int64]
    [g - 2^64], and the price is then minus the quotient by [2^64 - g]. *)
Theorem prices_round_down `{X : Externals} :
  (forall tx receipt result signer hdr bal st,
     0 < Receipt_GasUsed receipt < 2 ^ 63 ->
     exists entry,
       processTransactionResult tx receipt result signer hdr bal st
       = Ok entry /\
       entry !! "gasPrice"
       = Some (VStr (bigString ((GetBalance st (eth_Coinbase hdr) - bal)
                                / Receipt_GasUsed receipt)))) /\
  (forall rs st bal cb fees total parent bh,
     0 < total < 2 ^ 63 ->
     exists ret_,
       prepareFinalResult rs st bal cb fees total parent bh = Ok ret_ /\
       ret_ !! "bundleGasPrice"
       = Some (RStr (bigString ((GetBalance st cb - bal) / total)))) /\
  (forall tx receipt result signer hdr bal st,
     2 ^ 63 <= Receipt_GasUsed receipt < 2 ^ 64 ->
     exists entry,
       processTransactionResult tx receipt result signer hdr bal st
       = Ok entry /\
       entry !! "gasPrice"
       = Some (VStr (bigString
                       (- ((GetBalance st (eth_Coinbase hdr) - bal)
                           / (2 ^ 64 - Receipt_GasUsed receipt)))))).
Proof.
  split; [| split].
  - intros tx receipt result signer hdr bal st Hg.
    assert (Hnz : toInt64 (Receipt_GasUsed receipt) <> 0)
      by (rewrite toInt64_small by lia; lia).
    destruct (processTransactionResult_outcome tx receipt result signer hdr
                bal st) as [_ Hok].
    destruct (Hok Hnz) as [entry Hentry]. exists entry.
    split; [exact Hentry |].
    destruct (entry_accounting _ _ _ _ _ _ _ _ Hentry)
      as (_ & _ & _ & q & Hdiv & Hprice).
    rewrite toInt64_small, bigDiv_pos in Hdiv by lia.
    injection Hdiv as <-. exact Hprice.
  - intros rs st bal cb fees total parent bh Hg.
    assert (Hnz : toInt64 total <> 0) by (rewrite toInt64_small by lia; lia).
    destruct (prepareFinalResult_outcome rs st bal cb fees total parent bh)
      as [_ Hok].
    destruct (Hok Hnz) as [ret_ Hret]. exists ret_. split; [exact Hret |].
    destruct (final_fields _ _ _ _ _ _ _ _ _ Hret)
      as (_ & _ & _ & _ & _ & _ & (q & Hdiv & Hprice) & _).
    rewrite toInt64_small, bigDiv_pos in Hdiv by lia.
    injection Hdiv as <-. exact Hprice.
  - intros tx receipt result signer hdr bal st Hg.
    assert (Hnz : toInt64 (Receipt_GasUsed receipt) <> 0)
      by (rewrite toInt64_high by lia; lia).
    destruct (processTransactionResult_outcome tx receipt result signer hdr
                bal st) as [_ Hok].
    destruct (Hok Hnz) as [entry Hentry]. exists entry.
    split; [exact Hentry |].
    destruct (entry_accounting _ _ _ _ _ _ _ _ Hentry)
      as (_ & _ & _ & q & Hdiv & Hprice).
    rewrite toInt64_high, bigDiv_neg in Hdiv by lia.
    replace (- (Receipt_GasUsed receipt - 2 ^ 64))
      with (2 ^ 64 - Receipt_GasUsed receipt) in Hdiv by lia.
    injection Hdiv as <-. exact Hprice.
Qed.

(** X7.  The keys of an entry.  Every entry has the eight keys txHash,
    gasUsed, fromAddress, toAddress, coinbaseDiff, gasFees,
    ethSentToCoinbase and gasPrice, plus value for an execution without
    error, or error (and revert when there is revert data) for one with an
    error, and no other key.  ["toAddress"] is "0x" for a transaction
    without recipient (a contract creation), ["fromAddress"] is the sender
    recovered under the signer. *)
Theorem entry_keys `{X : Externals} tx receipt result signer hdr bal st
    entry :
  processTransactionResult tx receipt result signer hdr bal st = Ok entry ->
  dom entry
  = entryKeys
    ∪ match Result_Err result with
      | None => {[ "value" ]}
      | Some _ =>
          if (0 <? length (Result_Revert result))%nat
          then {[ "error"; "revert" ]}
          else {[ "error" ]}
      end /\
  entry !! "fromAddress" = Some (VStr (AddressString (Sender signer tx))) /\
  entry !! "toAddress"
  = Some (VStr match TxTo tx with
               | Some a => AddressString a
               | None => "0x"
               end).
Proof.
  intros H. unfold processTransactionResult in H.
  match type of H with
  | context [bigDiv ?x ?y] =>
      destruct (bigDiv x y) as [q |] eqn:Hdiv; [| discriminate H]
  end.
  injection H as <-.
  destruct (Result_Err result) as [e |];
    [destruct (0 <? length (Result_Revert result))%nat |];
    (split; [| split; reflexivity]);
    rewrite !dom_insert_L, dom_empty_L; unfold entryKeys; set_solver.
Qed.

Lemma entry_keys_witness :
  dom (resultOf (lift (processTransactionResult (X := Toy.world) [x07]
                         (21000, []) (None, []) tt
                         (EthHeader (Externals := Toy.world)
                            (Toy.parentAt 100))
                         1000000 1042000)))
  = entryKeys
    ∪ match Result_Err (Externals := Toy.world) (None, []) with
      | None => {[ "value" ]}
      | Some _ =>
          if (0 <? length (Result_Revert (Externals := Toy.world)
                             (None, [])))%nat
          then {[ "error"; "revert" ]}
          else {[ "error" ]}
      end /\
  resultOf (lift (processTransactionResult (X := Toy.world) [x07]
                    (21000, []) (None, []) tt
                    (EthHeader (Externals := Toy.world) (Toy.parentAt 100))
                    1000000 1042000)) !! "fromAddress"
  = Some (VStr (AddressString (Externals := Toy.world)
                  (Sender (Externals := Toy.world) tt [x07]))) /\
  resultOf (lift (processTransactionResult (X := Toy.world) [x07]
                    (21000, []) (None, []) tt
                    (EthHeader (Externals := Toy.world) (Toy.parentAt 100))
                    1000000 1042000)) !! "toAddress"
  = Some (VStr match TxTo (Externals := Toy.world) [x07] with
               | Some a => AddressString (Externals := Toy.world) a
               | None => "0x"
               end).
Proof.
  apply (entry_keys (X := Toy.world) [x07] (21000, []) (None, []) tt
           (EthHeader (Externals := Toy.world) (Toy.parentAt 100))
           1000000 1042000).
  vm_compute. reflexivity.
Defined.

(** X8.  The keys of a final result, and its state block number.  A
    result has exactly the eight keys results, stateBlockNumber,
    totalGasUsed, coinbaseDiff, gasFees, ethSentToCoinbase, bundleGasPrice
    and bundleHash; ["stateBlockNumber"] is the number of the parent header
    whenever that number fits an [int64]. *)
Theorem result_keys `{X : Externals} rs st bal cb fees total parent bh ret_ :
  prepareFinalResult rs st bal cb fees total parent bh = Ok ret_ ->
  dom ret_ = resultKeys /\
  (- 2 ^ 63 <= eth_Number parent < 2 ^ 63 ->
   ret_ !! "stateBlockNumber" = Some (RI64 (eth_Number parent))).
Proof.
  intros H. split.
  - unfold prepareFinalResult in H.
    match type of H with
    | context [bigDiv ?x ?y] =>
        destruct (bigDiv x y) as [q |] eqn:Hdiv; [| discriminate H]
    end.
    injection H as <-.
    rewrite !dom_insert_L, dom_empty_L. unfold resultKeys. set_solver.
  - intros Hrange.
    apply final_fields in H as (_ & Hn & _). rewrite Hn. do 2 f_equal.
    unfold bigInt64.
    destruct (Z.ltb_spec (eth_Number parent) 0) as [Hneg | Hpos].
    + destruct (Z.eq_dec (eth_Number parent) (- 2 ^ 63)) as [Hmin | Hne].
      * rewrite Hmin. reflexivity.
      * rewrite (toInt64_signed (Z.abs _)) by lia.
        rewrite toInt64_signed by lia. lia.
    + rewrite toInt64_signed by lia. lia.
Qed.

Lemma result_keys_witness :
  dom (resultOf (lift (prepareFinalResult (X := Toy.world) [] 1043000
                         1000000 (repeat xcc 20%nat) 42000 21000
                         (EthHeader (Externals := Toy.world)
                            (Toy.parentAt 100))
                         [])))
  = resultKeys /\
  (- 2 ^ 63
   <= eth_Number (EthHeader (Externals := Toy.world) (Toy.parentAt 100))
   < 2 ^ 63 ->
   resultOf (lift (prepareFinalResult (X := Toy.world) [] 1043000
                     1000000 (repeat xcc 20%nat) 42000 21000
                     (EthHeader (Externals := Toy.world) (Toy.parentAt 100))
                     [])) !! "stateBlockNumber"
   = Some (RI64 (eth_Number
                   (EthHeader (Externals := Toy.world) (Toy.parentAt 100))))).
Proof.
  apply (result_keys (X := Toy.world) [] 1043000 1000000 (repeat xcc 20%nat)
           42000 21000
           (EthHeader (Externals := Toy.world) (Toy.parentAt 100)) []).
  vm_compute. reflexivity.
Defined.

(** ** Aggregates and entries *)

Section Sums.
Context `{X : Externals} `{!ExternalsOK X}.

(** Along a loop that runs to its end, the per-transaction coinbase
    differences add up to the difference between the last and the first
    state: each iteration reads its "before" balance from the state the
    previous one left. *)
Lemma bundleLoop_sums ctx coinbase signer txs i ls t ls' :
  coinbase = Coinbase (header ls) ->
  bundleLoop ctx coinbase signer i txs ls = (t, Ok ls') ->
  exists entries diffs fees sents,
    results ls' = results ls ++ entries /\
    Forall2 (fun e d => e !! "coinbaseDiff" = Some (VStr (bigString d)))
      entries diffs /\
    Forall2 (fun e f => e !! "gasFees" = Some (VStr (bigString f)))
      entries fees /\
    Forall2 (fun e s => e !! "ethSentToCoinbase" = Some (VStr (bigString s)))
      entries sents /\
    sumZ diffs
    = GetBalance (state ls') coinbase - GetBalance (state ls) coinbase /\
    gasFees ls' = gasFees ls + sumZ fees /\
    sumZ sents = sumZ diffs - sumZ fees.
Proof.
  intros Hcb Hloop. revert Hcb. pattern i, txs, ls, ls', t.
  revert txs i ls t ls' Hloop.
  apply (bundleLoop_Ok_ind ctx coinbase signer).
  - intros i ls _. exists [], [], [], []. cbn [sumZ foldr].
    rewrite app_nil_r. repeat split; try constructor; lia.
  - intros i tx rest ls ls1 ls2 t1 t2 Hiter _ IH Hcb. subst coinbase.
    apply bundleIter_accounting in Hiter
      as (entry & g & tipv & Hres & _ & _ & Hfees & Hhdr & Hd & Hf & He).
    destruct IH as (entries & diffs & fees & sents & Hres2 & Hds & Hfs & Hss
                    & Hsum & Hfees2 & Hsents).
    { apply (f_equal Coinbase) in Hhdr. cbn in Hhdr. congruence. }
    exists (entry :: entries),
      (GetBalance (state ls1) (Coinbase (header ls))
       - GetBalance (state ls) (Coinbase (header ls)) :: diffs),
      (toInt64 g * tipv :: fees),
      (GetBalance (state ls1) (Coinbase (header ls))
       - GetBalance (state ls) (Coinbase (header ls))
       - toInt64 g * tipv :: sents).
    unfold sumZ in *. cbn [foldr].
    split; [rewrite Hres2, Hres, <- app_assoc; reflexivity |].
    split; [constructor; assumption |].
    split; [constructor; assumption |].
    split; [constructor; assumption |].
    split; [lia |]. split; lia.
Qed.

End Sums.

(** X9.  In a result, the bundle-wide figures are the sums of the
    per-transaction figures: ["coinbaseDiff"] is the sum of the entries'
    coinbaseDiff, ["gasFees"] the sum of their gasFees, and
    ["ethSentToCoinbase"] the sum of their ethSentToCoinbase.  (The
    bundle-wide difference is computed from the first and the last balance;
    the sum is the same because each iteration reads its starting balance
    from the state the previous iteration left.) *)
Theorem aggregates_are_sums `{X : Externals} `{!ExternalsOK X} ctx args t
    ret_ :
  CallBundle ctx args = (t, Ok ret_) -> SumsOfEntries ret_.
Proof.
  intros Hcall. unfold SumsOfEntries.
  apply CallBundle_Ok_inv in Hcall
    as (txs & state0 & parent & tl & ls & _ & _ & _ & _ & Hloop & Hfin & _).
  pose proof (bundleLoop_sums _ _ _ _ _ _ _ _ eq_refl Hloop)
    as (entries & diffs & fees & sents & Hres & Hds & Hfs & Hss & Hsum
        & Hfees & Hsents).
  cbn [bundleStart results gasFees state header] in Hres, Hfees, Hsum.
  apply final_fields in Hfin as (Hr & _ & _ & Hd & Hf & He & _).
  cbn zeta in Hd, He.
  exists entries, diffs, fees, sents.
  rewrite Hres in Hr. cbn [app] in Hr.
  rewrite Hfees, Z.add_0_l in Hf, He. rewrite <- Hsum in Hd, He.
  rewrite <- Hsents in He.
  repeat split; auto.
Qed.

Lemma aggregates_are_sums_witness :
  SumsOfEntries
    (resultOf (CallBundle (X := Toy.world) (CallerCtx 0)
                 (Toy.request [[x01]; [x02]; [x06]] 101 None None))).
Proof.
  apply (aggregates_are_sums (X := Toy.world) (ExternalsOK0 := Toy_ok)
           (CallerCtx 0) (Toy.request [[x01]; [x02]; [x06]] 101 None None)
           (trace (CallBundle (X := Toy.world) (CallerCtx 0)
                     (Toy.request [[x01]; [x02]; [x06]] 101 None None)))).
  vm_compute. reflexivity.
Defined.

(** ** The order of the calls *)

Section CallOrder.
Context `{X : Externals}.

Lemma decode_events_silent (encoded : list (list byte)) :
  ctxChecks (map EvUnmarshalBinary encoded) = [] /\
  txContexts (map EvUnmarshalBinary encoded) = [] /\
  appliedHashes (map EvUnmarshalBinary encoded) = [] /\
  appliedPools (map EvUnmarshalBinary encoded) = [].
Proof.
  induction encoded as [| enc rest (H1 & H2 & H3 & H4)];
    repeat split; auto.
Qed.

(** The calls of a loop that runs to its end. *)
Lemma bundleLoop_call_order ctx coinbase signer txs i ls t ls' :
  bundleLoop ctx coinbase signer i txs ls = (t, Ok ls') ->
  ctxChecks t = positions i txs /\
  txContexts t = tagged i txs /\
  appliedHashes t = map TxHash txs /\
  length t = (4 * length txs)%nat /\
  (txs <> [] -> exists rest, appliedPools t = gp ls :: rest).
Proof.
  revert txs i ls t ls'.
  apply (bundleLoop_Ok_ind ctx coinbase signer
           (fun i txs ls _ t =>
              ctxChecks t = positions i txs /\
              txContexts t = tagged i txs /\
              appliedHashes t = map TxHash txs /\
              length t = (4 * length txs)%nat /\
              (txs <> [] -> exists rest, appliedPools t = gp ls :: rest))).
  - intros i ls. repeat split; auto. intros H. contradiction.
  - intros i tx rest ls ls1 ls2 t1 t2 Hiter _ (Hc & Hs & Ha & Hl & _).
    apply bundleIter_Ok_inv in Hiter
      as (? & ? & ? & ? & ? & ? & ? & ? & ? & _ & _ & _ & _ & _ & _ & ->).
    unfold ctxChecks, txContexts, appliedHashes, appliedPools in *.
    rewrite !flat_map_app, length_app, Hc, Hs, Ha, Hl.
    cbn [iterTrace flat_map app length positions tagged map].
    repeat split; auto; try lia.
    intros _. eexists. reflexivity.
Qed.

End CallOrder.

(** X10.  The calls of a bundle call that returns a result.  The
    cancellation signal is read once per transaction, at positions 0, 1,
    ..., N - 1 and never after the last transaction; the state is tagged
    with each transaction's hash and its position, in order; the engine is
    invoked exactly once per transaction, in the order of the request, the
    first time with a gas pool of 2^64 - 1; and besides the decoding calls
    and the state acquisition there are exactly four calls per
    transaction. *)
Theorem call_order `{X : Externals} ctx args t ret_ txs :
  CallBundle ctx args = (t, Ok ret_) ->
  Forall2 decodes (arg_Txs args) txs ->
  ctxChecks t = positions 0 txs /\
  txContexts t = tagged 0 txs /\
  appliedHashes t = map TxHash txs /\
  (exists rest, appliedPools t = MaxUint64 :: rest) /\
  length t = (length txs + 1 + 4 * length txs)%nat.
Proof.
  intros Hcall Hdec.
  apply CallBundle_Ok_inv in Hcall
    as (txs' & state0 & parent & tl & ls & Hne & _ & Hdec' & _ & Hloop & _
        & ->).
  rewrite <- (decodes_functional _ _ _ Hdec Hdec') in Hloop.
  apply bundleLoop_call_order in Hloop as (Hc & Hs & Ha & Hl & Hp).
  destruct (decode_events_silent (arg_Txs args)) as (D1 & D2 & D3 & D4).
  assert (Htxs : txs <> []).
  { intros ->. inversion Hdec as [Hnil |]. symmetry in Hnil. contradiction. }
  destruct (Hp Htxs) as [rest Hrest]. cbn [bundleStart gp] in Hrest.
  unfold ctxChecks, txContexts, appliedHashes, appliedPools in *.
  rewrite !flat_map_app, D1, D2, D3, D4.
  cbn [flat_map app]. rewrite length_app, length_map. cbn [length].
  rewrite Hl, (Forall2_length _ _ _ Hdec).
  split; [assumption |]. split; [assumption |]. split; [assumption |].
  split; [exists rest; exact Hrest | lia].
Qed.

Lemma call_order_witness :
  ctxChecks (trace (CallBundle (X := Toy.world) (CallerCtx 0)
                      (Toy.request [[x01]; [x02]] 101 None None)))
  = positions 0 [[x01]; [x02]] /\
  txContexts (trace (CallBundle (X := Toy.world) (CallerCtx 0)
                       (Toy.request [[x01]; [x02]] 101 None None)))
  = tagged (X := Toy.world) 0 [[x01]; [x02]] /\
  appliedHashes (trace (CallBundle (X := Toy.world) (CallerCtx 0)
                          (Toy.request [[x01]; [x02]] 101 None None)))
  = map Toy.txHash [[x01]; [x02]] /\
  (exists rest,
     appliedPools (trace (CallBundle (X := Toy.world) (CallerCtx 0)
                            (Toy.request [[x01]; [x02]] 101 None None)))
     = MaxUint64 :: rest) /\
  length (trace (CallBundle (X := Toy.world) (CallerCtx 0)
                   (Toy.request [[x01]; [x02]] 101 None None)))
  = (length [[x01]; [x02]] + 1 + 4 * length [[x01]; [x02]])%nat.
Proof.
  apply (call_order (X := Toy.world) (CallerCtx 0)
           (Toy.request [[x01]; [x02]] 101 None None)
           (trace (CallBundle (X := Toy.world) (CallerCtx 0)
                     (Toy.request [[x01]; [x02]] 101 None None)))
           (resultOf (CallBundle (X := Toy.world) (CallerCtx 0)
                        (Toy.request [[x01]; [x02]] 101 None None)))
           [[x01]; [x02]]).
  - vm_compute. reflexivity.
  - repeat constructor.
Defined.

(** ** Failures of the log previewer *)

(** X11.  [simulateTx] returns the error of the first step that fails as
    it is (unlike [CallBundle] it never adds the transaction hash) and
    makes no call after it: a failing state acquisition ends it before the
    state is tagged, a failing [GetEVM] before the engine is invoked, and a
    refusal by the engine after that one invocation.  It does not check
    what comes back without an error: a nil transaction or a nil state is
    dereferenced, which panics. *)
Theorem simulateTx_failures `{X : Externals} (ctx : Context) (txHash : Hash) :
  let ref := BlockNumberOrHashWithNumber (bigInt64 (Number CurrentBlock)) in
  (GetTransaction ctx txHash = (None, None) ->
   simulateTx ctx txHash
   = ([EvGetTransaction txHash], Panic "nil pointer dereference")) /\
  (forall tx,
     GetTransaction ctx txHash = (Some tx, None) ->
     (forall ostate oparent e,
        StateAndHeaderByNumberOrHash ctx ref = (ostate, oparent, Some e) ->
        simulateTx ctx txHash
        = ([EvGetTransaction txHash; EvStateAndHeader ctx ref], Err e)) /\
     (forall oparent,
        StateAndHeaderByNumberOrHash ctx ref = (None, oparent, None) ->
        simulateTx ctx txHash
        = ([EvGetTransaction txHash; EvStateAndHeader ctx ref],
           Panic "nil pointer dereference")) /\
     (forall state0 oparent,
        StateAndHeaderByNumberOrHash ctx ref = (Some state0, oparent, None) ->
        (forall e,
           GetEVM ctx (SetTxContext state0 (TxHash tx) 0)
             (simulateHeader CurrentBlock) tx = inl e ->
           simulateTx ctx txHash
           = ([EvGetTransaction txHash; EvStateAndHeader ctx ref;
               EvSetTxContext (TxHash tx) 0;
               EvGetEVM (TxHash tx) (simulateHeader CurrentBlock)],
              Err e)) /\
        (forall evm msg e,
           GetEVM ctx (SetTxContext state0 (TxHash tx) 0)
             (simulateHeader CurrentBlock) tx = inr (evm, msg) ->
           ApplyTransactionWithResult msg (TxGas tx)
             (SetTxContext state0 (TxHash tx) 0) (simulateHeader CurrentBlock)
             tx 0 evm = inl e ->
           simulateTx ctx txHash
           = (simulateTrace ctx txHash tx CurrentBlock, Err e)))).
Proof.
  cbn zeta. split.
  - intros Hget. unfold simulateTx. rewrite Hget. reflexivity.
  - intros tx Hget. split; [| split].
    + intros ostate oparent e Hst. unfold simulateTx.
      rewrite Hget, Hst. destruct ostate; reflexivity.
    + intros oparent Hst. unfold simulateTx. rewrite Hget, Hst. reflexivity.
    + intros state0 oparent Hst. split.
      * intros e Hevm. unfold simulateTx. rewrite Hget, Hst.
        cbn [bind emit]. rewrite Hevm. reflexivity.
      * intros evm msg e Hevm Happ. unfold simulateTx. rewrite Hget, Hst.
        cbn [bind emit]. rewrite Hevm. cbn [bind emit].
        cbn [simulateHeader GasUsed]. cbn [simulateHeader GasUsed] in Happ.
        rewrite Happ. reflexivity.
Qed.

(** An engine refusal in the previewer: the error is not wrapped. *)
Example simulateTx_engine_refusal_run :
  outcome (simulateTx (X := Toy.world) (CallerCtx 0) (repeat x03 32%nat))
  = Err "nonce too low".
Proof. vm_compute. reflexivity. Qed.

Lemma in_VM_failure_recorded_witness :
  exists entry t ls',
    bundleIter (X := Toy.world) (CallerCtx 0) (repeat xcc 20%nat) tt 0 [x02]
      (bundleStart (X := Toy.world) (Toy.request [[x02]] 101 None None)
         1000000 (Toy.parentAt 100))
    = (t, Ok ls') /\
    results ls'
    = results (bundleStart (X := Toy.world)
                 (Toy.request [[x02]] 101 None None) 1000000
                 (Toy.parentAt 100)) ++ [entry] /\
    entry !! "error" = Some (VStr "execution reverted") /\
    entry !! "value" = None /\
    entry !! "revert" =
      (if (0 <? length (Result_Revert (Externals := Toy.world)
                          (Some "execution reverted", [x6e; x6f])))%nat
       then Some (VStr (string_of_list_byte
                          (Result_Revert (Externals := Toy.world)
                             (Some "execution reverted", [x6e; x6f]))))
       else None).
Proof.
  apply (in_VM_failure_recorded (X := Toy.world) (CallerCtx 0)
           (repeat xcc 20%nat) tt 0 [x02]
           (bundleStart (X := Toy.world) (Toy.request [[x02]] 101 None None)
              1000000 (Toy.parentAt 100))
           tt [x02] (30000, []) (Some "execution reverted", [x6e; x6f])
           (MaxUint64 - 30000) 1060000 30000 2 "execution reverted").
  - reflexivity.
  - reflexivity.
  - reflexivity.
  - reflexivity.
  - vm_compute. discriminate.
  - reflexivity.
Defined.
